(** * SystemOSC: the sampling-and-dissemination cycle

    A shallow embedding of [src/index.ts] (the OSC/UDP client), of the
    HTTP-POST variant of the same file, and of [src/test-server.ts],
    together with the properties the specification states about them.

    Conventions.
    - A JavaScript [number] is modelled by its mathematical value: [NaN],
      an infinity, or a rational.  The binary rounding of IEEE doubles is
      not modelled; [parseFloat] of a decimal numeral is the value of the
      numeral.
    - A JavaScript exception is a [completion]: a computation either
      returns a value or throws; what is thrown is an [Error] object with
      its message, or some other value.
    - The module-level variable [oscPort] and the datagrams handed to the
      UDP port are threaded explicitly through a small monad [M].
    - [new Date().toISOString()] reads a clock; every function that reads
      it takes the reading as the argument [now]. *)

From Stdlib Require Import List String Ascii Bool Arith ZArith QArith Qround Qabs Lia Lqa.
From Stdlib Require Import DecimalString.
From Stdlib Require DecimalNat DecimalFacts Permutation Sorted.
Import ListNotations.
Close Scope Q_scope.
Close Scope Z_scope.
Open Scope string_scope.
Open Scope nat_scope.

(* ===================================================================== *)
(** ** JavaScript values *)
(* ===================================================================== *)

(** The value of a JavaScript [number]. *)
Inductive number : Type :=
| NaN
| Inf (negative : bool)
| Num (q : Q).

(** A property read from a host object: the number, or [undefined] when
    the property is missing (any value without a [toFixed] method behaves
    the same way here). *)
Inductive jsval : Type :=
| Undefined
| Number (x : number).

(** What a [throw] carries: an [Error] instance, or any other value. *)
Inductive thrown : Type :=
| ErrorObj (message : string)
| NonError.

(** The outcome of running a piece of code that may throw. *)
Inductive completion (A : Type) : Type :=
| Returned (a : A)
| Threw (e : thrown).
Arguments Returned {A} a.
Arguments Threw {A} e.

(** [error instanceof Error ? error.message : 'Unknown error'] *)
Definition errorMessage (error : thrown) : string :=
  match error with
  | ErrorObj message => message
  | NonError => "Unknown error"
  end.

(** Decimal rendering of an array index inside a template literal. *)
Definition string_of_nat (n : nat) : string :=
  NilEmpty.string_of_uint (Nat.to_uint n).

(* ===================================================================== *)
(** ** Configuration: [parseInt(process.env.X || default, 10)] *)
(* ===================================================================== *)

Module Config.

(** [process.env]: a variable is unset ([None]) or holds a string. *)
Definition environment := string -> option string.

(** [process.env.X || dflt]: [undefined] and the empty string are falsy. *)
Definition or_default (v : option string) (dflt : string) : string :=
  match v with
  | None => dflt
  | Some EmptyString => dflt
  | Some s => s
  end.

(** White space skipped by [parseInt] (the ASCII part of StrWhiteSpaceChar). *)
Definition is_space (c : ascii) : bool :=
  let n := nat_of_ascii c in
  ((9 <=? n) && (n <=? 13)) || (n =? 32).

Fixpoint trim_start (s : string) : string :=
  match s with
  | String c rest => if is_space c then trim_start rest else s
  | EmptyString => s
  end.

Definition digit_of (c : ascii) : option Z :=
  let n := nat_of_ascii c in
  if (48 <=? n) && (n <=? 57) then Some (Z.of_nat (n - 48)) else None.

(** The longest prefix of decimal digits, read left to right:
    [None] when the string does not start with a digit. *)
Fixpoint digits_prefix (acc : option Z) (s : string) : option Z :=
  match s with
  | String c rest =>
      match digit_of c with
      | Some d =>
          digits_prefix (Some (10 * match acc with Some a => a | None => 0 end + d)%Z) rest
      | None => acc
      end
  | EmptyString => acc
  end.

(** [parseInt(s, 10)]: skip white space, read an optional sign, then the
    digits; [NaN] when no digit follows. *)
Definition parseInt10 (s : string) : number :=
  let t := trim_start s in
  let '(negative, body) :=
    match t with
    | String "-" rest => (true, rest)
    | String "+" rest => (false, rest)
    | _ => (false, t)
    end in
  match digits_prefix None body with
  | Some z => Num (inject_Z (if negative then - z else z))
  | None => NaN
  end.

(** [const OSC_HOST = process.env.OSC_HOST || 'localhost'] *)
Definition OSC_HOST (env : environment) : string :=
  or_default (env "OSC_HOST") "localhost".

(** [const OSC_PORT = parseInt(process.env.OSC_PORT || '9877', 10)] *)
Definition OSC_PORT (env : environment) : number :=
  parseInt10 (or_default (env "OSC_PORT") "9877").

(** [const INTERVAL_MS = parseInt(process.env.INTERVAL_MS || '10000', 10)] *)
Definition INTERVAL_MS (env : environment) : number :=
  parseInt10 (or_default (env "INTERVAL_MS") "10000").

(** An environment with exactly one variable set. *)
Definition env_with (name value : string) : environment :=
  fun k => if String.eqb k name then Some value else None.

Definition env_empty : environment := fun _ => None.

End Config.

(* ===================================================================== *)
(** ** Code that may throw *)
(* ===================================================================== *)

Definition bind {A B : Type} (c : completion A) (k : A -> completion B) : completion B :=
  match c with
  | Returned a => k a
  | Threw e => Threw e
  end.

Notation "x <- c ;; k" := (bind c (fun x => k))
  (at level 61, c at next level, right associativity).

(** [try { body } catch (error) { handler }] for code without side effects. *)
Definition try_catch {A : Type} (body : completion A) (handler : thrown -> completion A)
  : completion A :=
  match body with
  | Returned a => Returned a
  | Threw e => handler e
  end.

(** [xs.map((x, index) => f(x, index))] where the callback may throw:
    elements are visited in ascending index order and the first throw
    aborts the traversal. *)
Fixpoint map_indexed {A B : Type} (f : A -> nat -> completion B) (index : nat) (xs : list A)
  : completion (list B) :=
  match xs with
  | [] => Returned []
  | x :: rest =>
      y <- f x index ;;
      ys <- map_indexed f (S index) rest ;;
      Returned (y :: ys)
  end.

(* ===================================================================== *)
(** ** Rounding: [parseFloat(x.toFixed(2))] *)
(* ===================================================================== *)

(** [10^21], the bound above which [toFixed] falls back to [ToString]. *)
Definition toFixed_limit : Q := inject_Z (10 ^ 21).

(** [Number.prototype.toFixed(2)] applied to [|x|] picks the integer [n]
    for which [n / 100 - |x|] is closest to zero, the larger one when two
    are equally close. *)
Definition hundredths (x : Q) : Z :=
  Qfloor (inject_Z 100 * Qabs x + (1 # 2))%Q.

(** [parseFloat(x.toFixed(2))] on a number.
    - [NaN] and the infinities print as "NaN" and "Infinity", which
      [parseFloat] reads back;
    - from [10^21] on, [toFixed] prints [x] itself and [parseFloat] reads
      it back;
    - otherwise [toFixed] prints the sign and [n] with two fraction
      digits, and [parseFloat] reads that numeral. *)
Definition parseFloat_toFixed2 (x : number) : number :=
  match x with
  | NaN => NaN
  | Inf negative => Inf negative
  | Num q =>
      if Qle_bool toFixed_limit (Qabs q) then Num q
      else
        let n := hundredths q in
        Num ((if Qle_bool 0 q then n else - n)%Z # 100)
  end.

(** The same on a property of a host object: calling [.toFixed] on
    [undefined] throws a TypeError. *)
Definition round2 (v : jsval) : completion number :=
  match v with
  | Undefined =>
      Threw (ErrorObj "Cannot read properties of undefined (reading 'toFixed')")
  | Number x => Returned (parseFloat_toFixed2 x)
  end.

(* ===================================================================== *)
(** ** Data model *)
(* ===================================================================== *)

Record CPUInfo : Type := {
  model : string;
  cores : Z;
  speed : number;
}.

Record CPUUsage : Type := {
  total : number;
  user : number;
  system : number;
  idle : number;
}.

Record CoreStats : Type := {
  core : nat;
  load : number;
  loadUser : number;
  loadSystem : number;
  loadIdle : number;
}.

Record CPUStats : Type := {
  timestamp : string;
  hostname : string;
  cpu : CPUInfo;
  usage : CPUUsage;
  perCore : list CoreStats;
}.

(** The host facility, [systeminformation], as far as the collector uses
    it: the objects the two queries resolve to. *)
Module si.

Record CurrentLoadCpuData : Type := {
  load : jsval;
  loadUser : jsval;
  loadSystem : jsval;
  loadIdle : jsval;
}.

Record CurrentLoadData : Type := {
  currentLoad : jsval;
  currentLoadUser : jsval;
  currentLoadSystem : jsval;
  currentLoadIdle : jsval;
  cpus : list CurrentLoadCpuData;
}.

Record CpuData : Type := {
  brand : string;
  cores : Z;
  speed : number;
}.

End si.

(** What one run of the collector observes of the host: how each awaited
    query settles, and [os.hostname()]. *)
Record Host : Type := {
  si_currentLoad : completion si.CurrentLoadData;
  si_cpu : completion si.CpuData;
  os_hostname : string;
}.

(* ===================================================================== *)
(** ** The collector: [collectCPUStats] *)
(* ===================================================================== *)

(** The callback of [currentLoad.cpus.map]. *)
Definition collect_core (c : si.CurrentLoadCpuData) (index : nat) : completion CoreStats :=
  l <- round2 (si.load c) ;;
  lu <- round2 (si.loadUser c) ;;
  ls <- round2 (si.loadSystem c) ;;
  li <- round2 (si.loadIdle c) ;;
  Returned {| core := index; load := l; loadUser := lu; loadSystem := ls; loadIdle := li |}.

(** The body of the [try] block. *)
Definition collectCPUStats_body (host : Host) (now : string) : completion CPUStats :=
  currentLoad <- si_currentLoad host ;;
  cpuInfo <- si_cpu host ;;
  t <- round2 (si.currentLoad currentLoad) ;;
  u <- round2 (si.currentLoadUser currentLoad) ;;
  s <- round2 (si.currentLoadSystem currentLoad) ;;
  i <- round2 (si.currentLoadIdle currentLoad) ;;
  cs <- map_indexed collect_core 0 (si.cpus currentLoad) ;;
  Returned {|
    timestamp := now;
    hostname := os_hostname host;
    cpu := {| model := si.brand cpuInfo; cores := si.cores cpuInfo; speed := si.speed cpuInfo |};
    usage := {| total := t; user := u; system := s; idle := i |};
    perCore := cs;
  |}.

(** [collectCPUStats]: whatever the body throws is rethrown as a new
    [Error] with the prefixed message. *)
Definition collectCPUStats (host : Host) (now : string) : completion CPUStats :=
  try_catch (collectCPUStats_body host now)
    (fun error => Threw (ErrorObj ("Failed to collect CPU stats: " ++ errorMessage error))).

(* ===================================================================== *)
(** ** The UDP port and the module-level variable [oscPort] *)
(* ===================================================================== *)

Inductive OscArg : Type :=
| ArgF (value : number)   (* { type: 'f', value } *)
| ArgS (value : string)   (* { type: 's', value } *)
| ArgI (value : Z).       (* { type: 'i', value } *)

Record OscMessage : Type := {
  address : string;
  args : list OscArg;
}.

(** One call [oscPort.send(message, OSC_HOST, OSC_PORT)] that went through. *)
Record Datagram : Type := {
  packet : OscMessage;
  toHost : string;
  toPort : number;
}.

(** An [osc.UDPPort] object.  [sent] logs the datagrams handed to it, in
    order; [closeCalls] counts the calls of [close()]; [send_fault] is the
    behaviour of the library's [send]: given the state of the port and the
    message, it goes through ([None]) or throws. *)
Record UDPPort : Type := {
  sent : list Datagram;
  closeCalls : nat;
  send_fault : list Datagram -> nat -> OscMessage -> option thrown;
}.

(** [new osc.UDPPort({...})] followed by [open()]. *)
Definition new_UDPPort (fault : list Datagram -> nat -> OscMessage -> option thrown) : UDPPort :=
  {| sent := []; closeCalls := 0; send_fault := fault |}.

(** A port whose [send] never throws. *)
Definition no_fault : list Datagram -> nat -> OscMessage -> option thrown :=
  fun _ _ _ => None.

(** [oscPort.close()] *)
Definition UDPPort_close (p : UDPPort) : UDPPort :=
  {| sent := sent p; closeCalls := S (closeCalls p); send_fault := send_fault p |}.

(** Code that reads [oscPort] and sends: it runs on the current value of
    the variable and leaves a completion and the new value.  What was sent
    before a throw stays sent. *)
Definition M (A : Type) : Type := option UDPPort -> completion A * option UDPPort.

Definition ret {A : Type} (a : A) : M A := fun w => (Returned a, w).

Definition throw {A : Type} (e : thrown) : M A := fun w => (Threw e, w).

Definition bindM {A B : Type} (c : M A) (k : A -> M B) : M B :=
  fun w =>
    match c w with
    | (Returned a, w') => k a w'
    | (Threw e, w') => (Threw e, w')
    end.

Notation "c1 ;;; c2" := (bindM c1 (fun _ => c2))
  (at level 62, right associativity).

(** [try { body } catch (error) { handler }] *)
Definition try_catchM {A : Type} (body : M A) (handler : thrown -> M A) : M A :=
  fun w =>
    match body w with
    | (Returned a, w') => (Returned a, w')
    | (Threw e, w') => handler e w'
    end.

(** [xs.forEach(f)] *)
Fixpoint forEach {A : Type} (f : A -> M unit) (xs : list A) : M unit :=
  match xs with
  | [] => ret tt
  | x :: rest => f x ;;; forEach f rest
  end.

(** [if (!oscPort) { throw new Error('OSC port not initialized'); }] *)
Definition require_port : M unit :=
  fun w =>
    match w with
    | None => (Threw (ErrorObj "OSC port not initialized"), w)
    | Some _ => (Returned tt, w)
    end.

Section Sink.

(** The configuration constants of the module. *)
Variable OSC_HOST : string.
Variable OSC_PORT : number.

(** [oscPort.send(message, OSC_HOST, OSC_PORT)]: a property access on
    [null] throws a TypeError; otherwise the library's [send] throws or
    the datagram is handed over. *)
Definition oscPort_send (message : OscMessage) : M unit :=
  fun w =>
    match w with
    | None => (Threw (ErrorObj "Cannot read properties of null (reading 'send')"), w)
    | Some p =>
        match send_fault p (sent p) (closeCalls p) message with
        | Some e => (Threw e, w)
        | None =>
            (Returned tt,
             Some {| sent := sent p ++ [{| packet := message; toHost := OSC_HOST; toPort := OSC_PORT |}];
                     closeCalls := closeCalls p;
                     send_fault := send_fault p |})
        end
    end.

(* =================================================================== *)
(** ** The UDP sink: [sendStats] *)
(* =================================================================== *)

Record SendResult : Type := {
  success : bool;
  status : string;
  error : option string;
  sr_timestamp : string;
}.

(** The callback of [stats.perCore.forEach]. *)
Definition send_core (c : CoreStats) : M unit :=
  oscPort_send {| address := "/cpu/core/" ++ string_of_nat (core c) ++ "/load";
                  args := [ArgF (load c)] |}.

(** The body of the [try] block. *)
Definition sendStats_body (stats : CPUStats) (now : string) : M SendResult :=
  require_port ;;;
  oscPort_send {| address := "/cpu/usage/total"; args := [ArgF (total (usage stats))] |} ;;;
  oscPort_send {| address := "/cpu/usage/user"; args := [ArgF (user (usage stats))] |} ;;;
  oscPort_send {| address := "/cpu/usage/system"; args := [ArgF (system (usage stats))] |} ;;;
  oscPort_send {| address := "/cpu/usage/idle"; args := [ArgF (idle (usage stats))] |} ;;;
  oscPort_send {| address := "/cpu/info/model"; args := [ArgS (model (cpu stats))] |} ;;;
  oscPort_send {| address := "/cpu/info/cores"; args := [ArgI (cores (cpu stats))] |} ;;;
  forEach send_core (perCore stats) ;;;
  oscPort_send {| address := "/cpu/timestamp"; args := [ArgS (timestamp stats)] |} ;;;
  ret {| success := true; status := "OK"; error := None; sr_timestamp := now |}.

(** The [catch] block. *)
Definition sendStats_catch (now : string) (e : thrown) : M SendResult :=
  ret {| success := false; status := "ERROR"; error := Some (errorMessage e);
         sr_timestamp := now |}.

(** [sendStats(stats)]: the promise it returns is settled by the time
    the call returns, since the body awaits nothing. *)
Definition sendStats (stats : CPUStats) (now : string) : M SendResult :=
  try_catchM (sendStats_body stats now) (sendStats_catch now).

End Sink.

(* ===================================================================== *)
(** ** The scheduler: the effect of [App] and the [shutdown] handler *)
(* ===================================================================== *)

(** A call of [monitor] is suspended at one of its two [await]s: on the
    promise of [collectCPUStats()], or on the promise [sendStats(stats)]
    returned, which is already settled. *)
Inductive Phase : Type :=
| Collecting
| Disseminating (sendResult : completion SendResult).

(** The state the effect closes over, the module-level [oscPort], and the
    calls of [monitor] that have not finished, oldest first, each with the
    number it was started as. *)
Record AppState : Type := {
  cpuStats : option CPUStats;
  lastSend : SendResult;
  isLoading : bool;
  isMounted : bool;
  intervalActive : bool;
  oscPort : option UDPPort;
  inFlight : list (nat * Phase);
  started : nat;
  exited : bool;
}.

(** What the event loop delivers to the program. *)
Inductive Event : Type :=
| Tick
    (* the timer of [setInterval(monitor, INTERVAL_MS)] fires *)
| CollectSettled (id : nat) (host : Host) (collectedAt now : string)
    (* the promise of [collectCPUStats()] awaited by call [id] settles *)
| SendSettled (id : nat) (now : string)
    (* call [id] resumes after [await sendStats(stats)] *)
| Unmount
    (* React unmounts [App]: the effect's cleanup runs *)
| Signal.
    (* SIGINT or SIGTERM: [shutdown] runs *)

(** The phase call [id] is suspended in, if it is in flight. *)
Fixpoint lookup (id : nat) (l : list (nat * Phase)) : option Phase :=
  match l with
  | [] => None
  | (i, p) :: rest => if Nat.eqb i id then Some p else lookup id rest
  end.

Definition remove (id : nat) (l : list (nat * Phase)) : list (nat * Phase) :=
  filter (fun e => negb (Nat.eqb (fst e) id)) l.

Definition set_phase (id : nat) (p : Phase) (l : list (nat * Phase)) : list (nat * Phase) :=
  map (fun e => if Nat.eqb (fst e) id then (fst e, p) else e) l.

Section App.

Variable OSC_HOST : string.
Variable OSC_PORT : number.

(** The first render: [useState] initial values; the effect has not run. *)
Definition App_render (now : string) : AppState := {|
  cpuStats := None;
  lastSend := {| success := false; status := "Initializing..."; error := None;
                 sr_timestamp := now |};
  isLoading := true;
  isMounted := false;
  intervalActive := false;
  oscPort := None;
  inFlight := [];
  started := 0;
  exited := false;
|}.

(** [monitor()] up to its first [await]: [collectCPUStats()] is called
    and the call suspends. *)
Definition monitor_start (s : AppState) : AppState := {|
  cpuStats := cpuStats s;
  lastSend := lastSend s;
  isLoading := isLoading s;
  isMounted := isMounted s;
  intervalActive := intervalActive s;
  oscPort := oscPort s;
  inFlight := inFlight s ++ [(started s, Collecting)];
  started := S (started s);
  exited := exited s;
|}.

(** The effect: [isMounted = true], [initializeOSC()], [monitor()] run
    immediately, then [setInterval(monitor, INTERVAL_MS)]. *)
Definition App_effect (fault : list Datagram -> nat -> OscMessage -> option thrown)
    (s : AppState) : AppState :=
  let s1 := {|
    cpuStats := cpuStats s;
    lastSend := lastSend s;
    isLoading := isLoading s;
    isMounted := true;
    intervalActive := intervalActive s;
    oscPort := Some (new_UDPPort fault);
    inFlight := inFlight s;
    started := started s;
    exited := exited s;
  |} in
  let s2 := monitor_start s1 in
  {|
    cpuStats := cpuStats s2;
    lastSend := lastSend s2;
    isLoading := isLoading s2;
    isMounted := isMounted s2;
    intervalActive := true;
    oscPort := oscPort s2;
    inFlight := inFlight s2;
    started := started s2;
    exited := exited s2;
  |}.

(** The [catch] block of [monitor]. *)
Definition monitor_catch (id : nat) (e : thrown) (now : string) (s : AppState) : AppState := {|
  cpuStats := cpuStats s;
  lastSend :=
    if isMounted s
    then {| success := false; status := "ERROR"; error := Some (errorMessage e);
            sr_timestamp := now |}
    else lastSend s;
  isLoading := if isMounted s then false else isLoading s;
  isMounted := isMounted s;
  intervalActive := intervalActive s;
  oscPort := oscPort s;
  inFlight := remove id (inFlight s);
  started := started s;
  exited := exited s;
|}.

(** [monitor] from the first [await] to the second: on a snapshot, the
    state is updated when mounted and [sendStats(stats)] runs to its end;
    on a throw, the [catch] block runs. *)
Definition monitor_collected (id : nat) (host : Host) (collectedAt now : string)
    (s : AppState) : AppState :=
  match collectCPUStats host collectedAt with
  | Returned stats =>
      let '(r, w) := sendStats OSC_HOST OSC_PORT stats now (oscPort s) in
      {|
        cpuStats := if isMounted s then Some stats else cpuStats s;
        lastSend := lastSend s;
        isLoading := if isMounted s then false else isLoading s;
        isMounted := isMounted s;
        intervalActive := intervalActive s;
        oscPort := w;
        inFlight := set_phase id (Disseminating r) (inFlight s);
        started := started s;
        exited := exited s;
      |}
  | Threw e => monitor_catch id e now s
  end.

(** [monitor] after the second [await]. *)
Definition monitor_sent (id : nat) (r : completion SendResult) (now : string)
    (s : AppState) : AppState :=
  match r with
  | Returned sendResult => {|
      cpuStats := cpuStats s;
      lastSend := if isMounted s then sendResult else lastSend s;
      isLoading := isLoading s;
      isMounted := isMounted s;
      intervalActive := intervalActive s;
      oscPort := oscPort s;
      inFlight := remove id (inFlight s);
      started := started s;
      exited := exited s;
    |}
  | Threw e => monitor_catch id e now s
  end.

(** [if (oscPort) { oscPort.close(); }] *)
Definition close_if_open (w : option UDPPort) : option UDPPort :=
  match w with
  | Some p => Some (UDPPort_close p)
  | None => None
  end.

(** The cleanup the effect returns. *)
Definition App_cleanup (s : AppState) : AppState := {|
  cpuStats := cpuStats s;
  lastSend := lastSend s;
  isLoading := isLoading s;
  isMounted := false;
  intervalActive := false;
  oscPort := close_if_open (oscPort s);
  inFlight := inFlight s;
  started := started s;
  exited := exited s;
|}.

(** [unmount()]: React runs the cleanup of a mounted effect, once. *)
Definition unmount (s : AppState) : AppState :=
  if isMounted s then App_cleanup s else s.

(** [shutdown]: close the port, [unmount()], [process.exit(0)]. *)
Definition shutdown (s : AppState) : AppState :=
  let s1 := {|
    cpuStats := cpuStats s;
    lastSend := lastSend s;
    isLoading := isLoading s;
    isMounted := isMounted s;
    intervalActive := intervalActive s;
    oscPort := close_if_open (oscPort s);
    inFlight := inFlight s;
    started := started s;
    exited := exited s;
  |} in
  let s2 := unmount s1 in
  {|
    cpuStats := cpuStats s2;
    lastSend := lastSend s2;
    isLoading := isLoading s2;
    isMounted := isMounted s2;
    intervalActive := intervalActive s2;
    oscPort := oscPort s2;
    inFlight := inFlight s2;
    started := started s2;
    exited := true;
  |}.

(** One turn of the event loop.  Nothing runs after [process.exit]; a
    cleared timer does not fire; a call of [monitor] resumes only from
    the [await] it is suspended at. *)
Definition step (s : AppState) (ev : Event) : AppState :=
  if exited s then s
  else
    match ev with
    | Tick => if intervalActive s then monitor_start s else s
    | CollectSettled id host collectedAt now =>
        match lookup id (inFlight s) with
        | Some Collecting => monitor_collected id host collectedAt now s
        | _ => s
        end
    | SendSettled id now =>
        match lookup id (inFlight s) with
        | Some (Disseminating r) => monitor_sent id r now s
        | _ => s
        end
    | Unmount => unmount s
    | Signal => shutdown s
    end.

Definition run (s : AppState) (evs : list Event) : AppState :=
  fold_left step evs s.

(** The program once [render] has run the effect. *)
Definition App_mounted (fault : list Datagram -> nat -> OscMessage -> option thrown)
    (now : string) : AppState :=
  App_effect fault (App_render now).

End App.

(* ===================================================================== *)
(** ** The HTTP-POST variant of [sendStats] *)
(* ===================================================================== *)

Module HttpPost.

Record SendResult : Type := {
  success : bool;
  status : string;
  statusCode : option Z;
  error : option string;
  timestamp : string;
}.

(** The fields of an [AxiosError] the [catch] block looks at. *)
Record AxiosError : Type := {
  response : option (Z * string);   (* status, statusText *)
  request : bool;                   (* whether [request] is set *)
  message : string;
}.

(** What [await axios.post(...)] can throw. *)
Inductive rejection : Type :=
| IsAxiosError (axiosError : AxiosError)
| IsError (message : string)
| IsOther.

(** How [axios.post(TARGET_URL, stats, { timeout: 5000 })] settles. *)
Inductive settled : Type :=
| Resolved (status : Z)
| Rejected (error : rejection).

Definition string_of_Z (z : Z) : string :=
  NilEmpty.string_of_int (Z.to_int z).

(** The [catch] block's computation of [errorMessage]. *)
Definition errorMessage (error : rejection) : string :=
  match error with
  | IsAxiosError axiosError =>
      match response axiosError with
      | Some (st, statusText) => "HTTP " ++ string_of_Z st ++ ": " ++ statusText
      | None =>
          if request axiosError then "Network error - Unable to reach target"
          else message axiosError
      end
  | IsError m => m
  | IsOther => "Unknown error"
  end.

(** [sendStats(stats)], given how the POST settles. *)
Definition sendStats (post : settled) (now : string) : completion SendResult :=
  match post with
  | Resolved st =>
      Returned {| success := true; status := "OK"; statusCode := Some st;
                  error := None; timestamp := now |}
  | Rejected e =>
      Returned {| success := false; status := "ERROR"; statusCode := None;
                  error := Some (errorMessage e); timestamp := now |}
  end.

End HttpPost.

(* ===================================================================== *)
(** ** [test-server.ts]: the receiver of the HTTP-POST variant *)
(* ===================================================================== *)

Module TestServer.

Record Request : Type := {
  method : string;
  url : string;
  body : string;
}.

Record Response : Type := {
  statusCode : nat;
  responseBody : list (string * string);
}.

Section Handler.

(** The [try] block of the ['end'] listener, [JSON.parse(body)] and
    the logging of the parsed fields: it returns or throws. *)
Variable parse_and_log : string -> completion unit.

Definition server (req : Request) : Response :=
  if String.eqb (method req) "POST" && String.eqb (url req) "/cpu-stats"
  then
    match parse_and_log (body req) with
    | Returned _ =>
        {| statusCode := 200; responseBody := [("status", "ok"); ("received", "true")] |}
    | Threw _ =>
        {| statusCode := 400;
           responseBody := [("status", "error"); ("message", "Invalid JSON")] |}
    end
  else
    {| statusCode := 404; responseBody := [("status", "error"); ("message", "Not found")] |}.

End Handler.

End TestServer.

(* ===================================================================== *)
(** ** The HTTP pull sink *)
(* ===================================================================== *)

Module HttpPull.

Inductive JsonValue : Type :=
| JNumber (x : number)
| JInteger (z : Z)
| JString (s : string).

Record Entry : Type := {
  name : string;
  value : JsonValue;
}.

Inductive Body : Type :=
| ErrorBody (error : string)
| ArrayBody (entries : list Entry).

Record Response : Type := {
  statusCode : nat;
  body : Body;
}.

(** The entry that mirrors one message of the UDP sink: the address as
    [name], the argument as [value]. *)
Definition mirror (m : OscMessage) : list Entry :=
  match args m with
  | [ArgF x] => [{| name := address m; value := JNumber x |}]
  | [ArgS s] => [{| name := address m; value := JString s |}]
  | [ArgI z] => [{| name := address m; value := JInteger z |}]
  | _ => []
  end.

(** Modelled from the spec: the pull sink and its HTTP responder belong
    to a later version of [index.ts] that is not among the sources (the
    README documents the endpoint and [SystemOSCMenu.swift] calls it).
    The store holds the latest snapshot, absent until the first cycle
    has completed; each cycle replaces it; [GET /] answers 503 with the
    error body on an empty store and 200 with the JSON array of section
    6 otherwise: the four aggregate entries, model and cores, one entry
    per core, and the timestamp entry last. *)
Definition Store : Type := option CPUStats.

Definition initial_store : Store := None.

Definition disseminate (snapshot : CPUStats) (_ : Store) : Store := Some snapshot.

Definition json_array (s : CPUStats) : list Entry :=
  [ {| name := "/cpu/usage/total"; value := JNumber (total (usage s)) |};
    {| name := "/cpu/usage/user"; value := JNumber (user (usage s)) |};
    {| name := "/cpu/usage/system"; value := JNumber (system (usage s)) |};
    {| name := "/cpu/usage/idle"; value := JNumber (idle (usage s)) |};
    {| name := "/cpu/info/model"; value := JString (model (cpu s)) |};
    {| name := "/cpu/info/cores"; value := JInteger (cores (cpu s)) |} ]
  ++ map (fun c => {| name := "/cpu/core/" ++ string_of_nat (core c) ++ "/load";
                      value := JNumber (load c) |}) (perCore s)
  ++ [ {| name := "/cpu/timestamp"; value := JString (timestamp s) |} ].

Definition GET_root (store : Store) : Response :=
  match store with
  | None => {| statusCode := 503; body := ErrorBody "No data available yet" |}
  | Some s => {| statusCode := 200; body := ArrayBody (json_array s) |}
  end.

(** The store after the cycles that completed so far, oldest first. *)
Definition after_cycles (snapshots : list CPUStats) : Store :=
  fold_left (fun st s => disseminate s st) snapshots initial_store.

End HttpPull.

(* ===================================================================== *)
(** ** Vocabulary of the statements *)
(* ===================================================================== *)

(** The message [send_core] builds for one entry of [perCore]. *)
Definition core_message (c : CoreStats) : OscMessage :=
  {| address := "/cpu/core/" ++ string_of_nat (core c) ++ "/load"; args := [ArgF (load c)] |}.

(** The messages of one snapshot, in the order [sendStats] issues them. *)
Definition batch (stats : CPUStats) : list OscMessage :=
  [ {| address := "/cpu/usage/total"; args := [ArgF (total (usage stats))] |};
    {| address := "/cpu/usage/user"; args := [ArgF (user (usage stats))] |};
    {| address := "/cpu/usage/system"; args := [ArgF (system (usage stats))] |};
    {| address := "/cpu/usage/idle"; args := [ArgF (idle (usage stats))] |};
    {| address := "/cpu/info/model"; args := [ArgS (model (cpu stats))] |};
    {| address := "/cpu/info/cores"; args := [ArgI (cores (cpu stats))] |} ]
  ++ map core_message (perCore stats)
  ++ [ {| address := "/cpu/timestamp"; args := [ArgS (timestamp stats)] |} ].

(** The address of the load message of core [i]. *)
Definition core_address (i : nat) : string :=
  "/cpu/core/" ++ string_of_nat i ++ "/load".

(** The six addresses every batch starts with. *)
Definition head_addresses : list string :=
  [ "/cpu/usage/total"; "/cpu/usage/user"; "/cpu/usage/system"; "/cpu/usage/idle";
    "/cpu/info/model"; "/cpu/info/cores" ].

(** The addresses section 4.2 lists for [n] cores. *)
Definition fixed_order (n : nat) : list string :=
  head_addresses ++ map core_address (seq 0 n) ++ [ "/cpu/timestamp" ].

(** The port after [msgs] more messages went out to [host]:[port]. *)
Definition port_after (host : string) (port : number) (p : UDPPort) (msgs : list OscMessage)
  : UDPPort :=
  {| sent := sent p ++ map (fun m => {| packet := m; toHost := host; toPort := port |}) msgs;
     closeCalls := closeCalls p;
     send_fault := send_fault p |}.

(** A port whose [send] does not throw, whatever it has sent so far. *)
Definition never_faults (p : UDPPort) : Prop :=
  forall l n m, send_fault p l n m = None.

(** ** Concrete hosts and snapshots used in the examples *)

Definition percent (n : Z) : jsval := Number (Num (n # 1000)).

Definition core_load (l u s i : Z) : si.CurrentLoadCpuData :=
  {| si.load := percent l; si.loadUser := percent u; si.loadSystem := percent s;
     si.loadIdle := percent i |}.

(** The load answer of the README's example, with per-core list [cpus]. *)
Definition load_with (cpus : list si.CurrentLoadCpuData) : si.CurrentLoadData := {|
  si.currentLoad := percent 46454;
  si.currentLoadUser := percent 28441;
  si.currentLoadSystem := percent 18009;
  si.currentLoadIdle := percent 53546;
  si.cpus := cpus;
|}.

(** A host whose per-core list is [cpus] and whose CPU query reports
    [n] cores. *)
Definition host_with (n : Z) (cpus : list si.CurrentLoadCpuData) : Host := {|
  si_currentLoad := Returned (load_with cpus);
  si_cpu := Returned {| si.brand := "Apple M1 Max"; si.cores := n; si.speed := Num (24 # 10) |};
  os_hostname := "MacBook-Pro.local";
|}.

Definition ten_cores : list si.CurrentLoadCpuData :=
  [ core_load 97094 65120 31974 2906; core_load 97090 68450 28640 2910;
    core_load 70360 50000 20360 29640; core_load 56030 40000 16030 43970;
    core_load 41090 30000 11090 58910; core_load 32690 20000 12690 67310;
    core_load 35280 25000 10280 64720; core_load 18860 10000 8860 81140;
    core_load 10110 6000 4110 89890; core_load 6210 4000 2210 93790 ].

(** The 10-core host of the README's example. *)
Definition host_m1 : Host := host_with 10 ten_cores.

(** A host whose two queries disagree: ten cores reported, two listed. *)
Definition host_hotplug : Host := host_with 10 (firstn 2 ten_cores).

(** A host that reports a negative percentage. *)
Definition host_negative : Host := host_with 1 [core_load (-1500) 0 0 101500].

(** A host whose load query is rejected. *)
Definition host_down : Host := {|
  si_currentLoad := Threw (ErrorObj "spawn sysctl ENOENT");
  si_cpu := Returned {| si.brand := "Apple M1 Max"; si.cores := 10; si.speed := Num (24 # 10) |};
  os_hostname := "MacBook-Pro.local";
|}.

(** The snapshot the collector builds on [h], or [dflt] when it throws. *)
Definition snapshot_of (h : Host) (now : string) (dflt : CPUStats) : CPUStats :=
  match collectCPUStats h now with
  | Returned stats => stats
  | Threw _ => dflt
  end.

Definition empty_snapshot : CPUStats := {|
  timestamp := "";
  hostname := "";
  cpu := {| model := ""; cores := 0; speed := NaN |};
  usage := {| total := NaN; user := NaN; system := NaN; idle := NaN |};
  perCore := [];
|}.

(** The snapshot of the README's example. *)
Definition snapshot_m1 : CPUStats :=
  Eval vm_compute in snapshot_of host_m1 "2025-11-12T01:23:45.789Z" empty_snapshot.

(** The snapshot built when ten cores are reported and two are listed. *)
Definition snapshot_hotplug : CPUStats :=
  Eval vm_compute in snapshot_of host_hotplug "2025-11-12T01:23:45.789Z" empty_snapshot.

(** A port whose [send] throws once three datagrams have gone out. *)
Definition faulty_after_3 : list Datagram -> nat -> OscMessage -> option thrown :=
  fun l _ _ => if 3 <=? List.length l then Some (ErrorObj "send EHOSTUNREACH") else None.

(** ** What the collector checks, and what rounding gives *)

(** A property that is present. *)
Definition defined (v : jsval) : bool :=
  match v with
  | Undefined => false
  | Number _ => true
  end.

Definition core_complete (c : si.CurrentLoadCpuData) : bool :=
  defined (si.load c) && defined (si.loadUser c)
  && defined (si.loadSystem c) && defined (si.loadIdle c).

(** No percentage field of the load answer is missing. *)
Definition complete (l : si.CurrentLoadData) : bool :=
  defined (si.currentLoad l) && defined (si.currentLoadUser l)
  && defined (si.currentLoadSystem l) && defined (si.currentLoadIdle l)
  && forallb core_complete (si.cpus l).

(** [field] is [input] rounded to hundredths: a number with at most two
    decimal places, at most half a hundredth away from the input. *)
Definition rounds_to (input : jsval) (field : number) : Prop :=
  exists (q : Q) (n : Z),
    input = Number (Num q) /\ field = Num (n # 100)
    /\ (Qabs ((n # 100) - q) <= 1 # 200)%Q.

(** A finite number below [toFixed]'s limit of [10^21], as every
    percentage is. *)
Definition percentage (v : jsval) : Prop :=
  exists q : Q, v = Number (Num q) /\ (Qabs q < toFixed_limit)%Q.

Definition core_percentages (c : si.CurrentLoadCpuData) : Prop :=
  percentage (si.load c) /\ percentage (si.loadUser c)
  /\ percentage (si.loadSystem c) /\ percentage (si.loadIdle c).

Definition host_percentages (l : si.CurrentLoadData) : Prop :=
  percentage (si.currentLoad l) /\ percentage (si.currentLoadUser l)
  /\ percentage (si.currentLoadSystem l) /\ percentage (si.currentLoadIdle l)
  /\ Forall core_percentages (si.cpus l).

(** The four fields of a per-core entry are the host's, rounded. *)
Definition core_rounded (c : si.CurrentLoadCpuData) (r : CoreStats) : Prop :=
  rounds_to (si.load c) (load r) /\ rounds_to (si.loadUser c) (loadUser r)
  /\ rounds_to (si.loadSystem c) (loadSystem r) /\ rounds_to (si.loadIdle c) (loadIdle r).

(** ** Vocabulary of the scheduler statements *)

(** The datagram [oscPort.send(m, host, port)] hands over. *)
Definition datagram (host : string) (port : number) (m : OscMessage) : Datagram :=
  {| packet := m; toHost := host; toPort := port |}.

(** A log of datagrams made of one run of [sendStats] after the other:
    each run contributes the first [k] messages of its snapshot's batch
    (all of them, unless a [send] threw), and the runs do not interleave. *)
Inductive batches (host : string) (port : number) : list Datagram -> Prop :=
| batches_nil : batches host port []
| batches_app (l : list Datagram) (stats : CPUStats) (k : nat) :
    batches host port l ->
    batches host port (l ++ map (datagram host port) (firstn k (batch stats))).

(** The result a cycle records when its collection or its send threw [e]. *)
Definition failure (e : thrown) (now : string) : SendResult :=
  {| success := false; status := "ERROR"; error := Some (errorMessage e); sr_timestamp := now |}.

(** The number of [close()] calls the port has received. *)
Definition closes (s : AppState) : option nat :=
  option_map closeCalls (oscPort s).

(** The datagrams handed to the port so far. *)
Definition wire (s : AppState) : list Datagram :=
  match oscPort s with
  | Some p => sent p
  | None => []
  end.

(** No [Unmount] and no [Signal] among the events. *)
Definition keeps_running (ev : Event) : bool :=
  match ev with
  | Unmount | Signal => false
  | _ => true
  end.

(** Run on an initialised port, [c] hands over the first [k] of [msgs],
    in order, and nothing else, all of them when it returns; it leaves the
    rest of the port as it was. *)
Definition sends {A : Type} (host : string) (port : number) (c : M A)
    (msgs : list OscMessage) : Prop :=
  forall p, exists r k,
    c (Some p) = (r, Some (port_after host port p (firstn k msgs)))
    /\ (forall a, r = Returned a -> firstn k msgs = msgs).

(** Every call in flight was started before the next one to start. *)
Definition ids_below (n : nat) (l : list (nat * Phase)) : Prop :=
  Forall (fun e => fst e < n) l.

(** The program is up: mounted, timer armed, not exited, the port open
    and never closed, and the calls in flight numbered below [started]. *)
Definition running (s : AppState) : Prop :=
  exited s = false /\ isMounted s = true /\ intervalActive s = true
  /\ (exists p, oscPort s = Some p /\ closeCalls p = 0)
  /\ ids_below (started s) (inFlight s).

(** The datagrams of the whole batches of [snapshots], one batch after
    the other. *)
Definition whole_batches (host : string) (port : number) (snapshots : list CPUStats)
  : list Datagram :=
  flat_map (fun s => map (datagram host port) (batch s)) snapshots.

(** The port is initialised, its [send] does not throw, and its log is
    made of whole batches. *)
Definition sent_whole_batches (host : string) (port : number) (s : AppState) : Prop :=
  exists p snapshots,
    oscPort s = Some p /\ never_faults p
    /\ sent p = whole_batches host port snapshots.

(* ===================================================================== *)
(** ** Further vocabulary: decimal numerals *)
(* ===================================================================== *)

(** The number a run of decimal digits denotes when read after [acc]. *)
Fixpoint digits_value (d : Decimal.uint) (acc : Z) : Z :=
  match d with
  | Decimal.Nil => acc
  | Decimal.D0 d => digits_value d (10 * acc + 0)
  | Decimal.D1 d => digits_value d (10 * acc + 1)
  | Decimal.D2 d => digits_value d (10 * acc + 2)
  | Decimal.D3 d => digits_value d (10 * acc + 3)
  | Decimal.D4 d => digits_value d (10 * acc + 4)
  | Decimal.D5 d => digits_value d (10 * acc + 5)
  | Decimal.D6 d => digits_value d (10 * acc + 6)
  | Decimal.D7 d => digits_value d (10 * acc + 7)
  | Decimal.D8 d => digits_value d (10 * acc + 8)
  | Decimal.D9 d => digits_value d (10 * acc + 9)
  end%Z.


(** A string that does not start with a decimal digit. *)
Definition no_leading_digit (s : string) : Prop :=
  match s with
  | EmptyString => True
  | String c _ => Config.digit_of c = None
  end.

(* ===================================================================== *)
(** ** Further vocabulary: where a run of sends stops *)
(* ===================================================================== *)

(** Run on an initialised port, [c] hands over the first [k] of [msgs]
    and then either returns, with all of them sent, or throws what the
    port's [send] threw on the next message, with the rest not attempted. *)
Definition sends_until {A : Type} (host : string) (port : number) (c : M A)
    (msgs : list OscMessage) : Prop :=
  forall p, exists r k,
    c (Some p) = (r, Some (port_after host port p (firstn k msgs)))
    /\ match r with
       | Returned _ => k = List.length msgs
       | Threw e =>
           exists m,
             nth_error msgs k = Some m
             /\ send_fault p (sent (port_after host port p (firstn k msgs))) (closeCalls p) m
                = Some e
       end.

(* ===================================================================== *)
(** ** What [App] renders *)
(* ===================================================================== *)

(** [x >= bound] on a JavaScript number: false on [NaN]. *)
Definition number_ge (x : number) (bound : Q) : bool :=
  match x with
  | NaN => false
  | Inf negative => negb negative
  | Num q => Qle_bool bound q
  end.

(** [getUsageColor] *)
Definition getUsageColor (value : number) : string :=
  if number_ge value (80 # 1) then "red"
  else if number_ge value (50 # 1) then "yellow"
  else "green".

(** [getStatusColor] *)
Definition getStatusColor (status : string) : string :=
  if String.eqb status "OK" then "green"
  else if String.eqb status "ERROR" then "red"
  else "yellow".



(** The 'Last Send' section: the status with its colour, and the error
    line, rendered only when [lastSend.error] is a non-empty string. *)
Record SendPanel : Type := {
  statusText : string;
  statusColor : string;
  errorLine : option string;
}.

Definition send_panel (s : AppState) : SendPanel := {|
  statusText := status (lastSend s);
  statusColor := getStatusColor (status (lastSend s));
  errorLine :=
    match error (lastSend s) with
    | Some EmptyString => None
    | Some e => Some ("Error: " ++ e)
    | None => None
    end;
|}.

(** The results [sendStats] and [monitor] build. *)
Definition ok_result (now : string) : SendResult :=
  {| success := true; status := "OK"; error := None; sr_timestamp := now |}.

(** A result as the program builds them: the initial one, a success, or
    a failure with its detail. *)
Definition well_formed_result (r : SendResult) : Prop :=
  (exists now, r = {| success := false; status := "Initializing..."; error := None;
                      sr_timestamp := now |})
  \/ (exists now, r = ok_result now)
  \/ (exists e now, r = failure e now).

(** The result a suspended call of [monitor] is waiting to record. *)
Definition pending_well_formed (e : nat * Phase) : Prop :=
  match snd e with
  | Collecting => True
  | Disseminating c => exists r, c = Returned r /\ well_formed_result r
  end.

(* ===================================================================== *)
(** ** [test-server.ts]: what the ['end'] listener does with the body *)
(* ===================================================================== *)

Module Receiver.

Set Warnings "-register-all".

(** A value [JSON.parse] returns. *)
Inductive json : Type :=
| JNull
| JBool (b : bool)
| JNum (x : Q)
| JStr (s : string)
| JArr (items : list json)
| JObj (members : list (string * json)).

(** The result of a property access: [undefined] or a parsed value. *)
Inductive value : Type :=
| Undef
| Val (j : json).

(** The member [k] of an object; the last one wins, as in [JSON.parse]. *)
Fixpoint member (k : string) (members : list (string * json)) : option json :=
  match members with
  | [] => None
  | (k', j) :: rest =>
      match member k rest with
      | Some j' => Some j'
      | None => if String.eqb k' k then Some j else None
      end
  end.

(** [v.k] for the property names the listener reads: a TypeError on
    [undefined] and [null]; the member of an object; [length] of an array
    or a string; [undefined] otherwise. *)
Definition get (v : value) (k : string) : completion value :=
  match v with
  | Undef => Threw (ErrorObj ("Cannot read properties of undefined (reading '" ++ k ++ "')"))
  | Val JNull => Threw (ErrorObj ("Cannot read properties of null (reading '" ++ k ++ "')"))
  | Val (JObj members) =>
      Returned (match member k members with Some j => Val j | None => Undef end)
  | Val (JArr items) =>
      Returned (if String.eqb k "length"
                then Val (JNum (inject_Z (Z.of_nat (List.length items))))
                else Undef)
  | Val (JStr s) =>
      Returned (if String.eqb k "length"
                then Val (JNum (inject_Z (Z.of_nat (String.length s))))
                else Undef)
  | Val (JBool _) | Val (JNum _) => Returned Undef
  end.

(** Truthiness, as [&&] tests it. *)
Definition truthy (v : value) : bool :=
  match v with
  | Undef | Val JNull => false
  | Val (JBool b) => b
  | Val (JNum x) => negb (Qeq_bool x 0)
  | Val (JStr s) => negb (String.eqb s "")
  | Val (JArr _) | Val (JObj _) => true
  end.

Section Listener.

(** [JSON.parse(body)]: the parsed value, or a SyntaxError. *)
Variable JSON_parse : string -> completion json.

(** Whether a string or an array, converted to a number, is above zero
    (the conversion [>] applies to such an operand). *)
Variable converts_above_zero : json -> bool.

(** [v > 0] *)
Definition above_zero (v : value) : bool :=
  match v with
  | Undef | Val JNull | Val (JObj _) => false
  | Val (JBool b) => b
  | Val (JNum x) => negb (Qle_bool x 0)
  | Val (JStr s) => converts_above_zero (JStr s)
  | Val (JArr items) => converts_above_zero (JArr items)
  end.

(** The callback of [data.perCore.forEach]: it reads [core.core] and
    [core.load]. *)
Definition log_core (core : json) : completion unit :=
  _ <- get (Val core) "core" ;;
  _ <- get (Val core) "load" ;;
  Returned tt.

Fixpoint log_cores (items : list json) : completion unit :=
  match items with
  | [] => Returned tt
  | core :: rest => _ <- log_core core ;; log_cores rest
  end.

(** The [console.log] lines of the [try] block, in order: hostname, the
    CPU line, the four usage lines, and the per-core lines when
    [data.perCore && data.perCore.length > 0]. *)
Definition log_stats (data : json) : completion unit :=
  _ <- get (Val data) "hostname" ;;
  cpu <- get (Val data) "cpu" ;;
  _ <- get cpu "model" ;;
  _ <- get cpu "cores" ;;
  _ <- get cpu "speed" ;;
  usage <- get (Val data) "usage" ;;
  _ <- get usage "total" ;;
  _ <- get usage "user" ;;
  _ <- get usage "system" ;;
  _ <- get usage "idle" ;;
  perCore <- get (Val data) "perCore" ;;
  if truthy perCore then
    len <- get perCore "length" ;;
    if above_zero len then
      match perCore with
      | Val (JArr items) => log_cores items
      | _ => Threw (ErrorObj "data.perCore.forEach is not a function")
      end
    else Returned tt
  else Returned tt.

(** The [try] block: parse, then log. *)
Definition parse_and_log (body : string) : completion unit :=
  data <- JSON_parse body ;;
  log_stats data.

(** The request handler of [test-server.ts]. *)
Definition server (req : TestServer.Request) : TestServer.Response :=
  TestServer.server parse_and_log req.

End Listener.

(** A value with properties: anything but [null]. *)
Definition has_properties (j : json) : bool :=
  match j with
  | JNull => false
  | _ => true
  end.

(** The member [k] is there and is not [null]. *)
Definition present (k : string) (members : list (string * json)) : bool :=
  match member k members with
  | Some j => has_properties j
  | None => false
  end.

(** The [perCore] member the listener gets through: none, [null], a
    boolean, a number, the empty string, an array without [null] entries,
    or an object whose [length] is not above zero. *)
Definition perCore_accepted (converts_above_zero : json -> bool)
    (members : list (string * json)) : bool :=
  match member "perCore" members with
  | None | Some JNull | Some (JBool _) | Some (JNum _) => true
  | Some (JStr s) => String.eqb s ""
  | Some (JArr items) => forallb has_properties items
  | Some (JObj ms) =>
      negb (above_zero converts_above_zero
              (match member "length" ms with Some j => Val j | None => Undef end))
  end.

(** The parsed bodies the listener answers with 200. *)
Definition accepted (converts_above_zero : json -> bool) (data : json) : bool :=
  match data with
  | JObj members =>
      present "cpu" members && present "usage" members
      && perCore_accepted converts_above_zero members
  | _ => false
  end.

(** [JSON.stringify] of a number: [null] for [NaN] and the infinities. *)
Definition json_of_number (x : number) : json :=
  match x with
  | Num q => JNum q
  | _ => JNull
  end.

(** The value [JSON.parse] gives back for the body the HTTP-POST client
    sends, [JSON.stringify(stats)]. *)
Definition json_of_stats (stats : CPUStats) : json :=
  JObj [
    ("timestamp", JStr (timestamp stats));
    ("hostname", JStr (hostname stats));
    ("cpu", JObj [ ("model", JStr (model (cpu stats)));
                   ("cores", JNum (inject_Z (cores (cpu stats))));
                   ("speed", json_of_number (speed (cpu stats))) ]);
    ("usage", JObj [ ("total", json_of_number (total (usage stats)));
                     ("user", json_of_number (user (usage stats)));
                     ("system", json_of_number (system (usage stats)));
                     ("idle", json_of_number (idle (usage stats))) ]);
    ("perCore",
     JArr (map (fun c =>
                  JObj [ ("core", JNum (inject_Z (Z.of_nat (core c))));
                         ("load", json_of_number (load c));
                         ("loadUser", json_of_number (loadUser c));
                         ("loadSystem", json_of_number (loadSystem c));
                         ("loadIdle", json_of_number (loadIdle c)) ])
             (perCore stats)))
  ].

End Receiver.

(* ===================================================================== *)
(** ** [SystemOSCMenu.swift]: the menu bar poller *)
(* ===================================================================== *)

Module MenuBar.

(** [Int.max] and [Int.min] of a 64-bit [Int]. *)
Definition Int_max : Z := 2 ^ 63 - 1.
Definition Int_min : Z := - 2 ^ 63.

(** The value of a string made of decimal digits only. *)
Fixpoint all_digits (acc : Z) (s : string) : option Z :=
  match s with
  | EmptyString => Some acc
  | String c rest =>
      match Config.digit_of c with
      | Some d => all_digits (10 * acc + d) rest
      | None => None
      end
  end.

(** [Int(text)]: an optional sign and at least one digit, nothing else;
    [nil] also when the value does not fit an [Int]. *)
Definition Int_of_string (text : string) : option Z :=
  let '(negative, digits) :=
    match text with
    | String "-" rest => (true, rest)
    | String "+" rest => (false, rest)
    | _ => (false, text)
    end in
  match digits with
  | EmptyString => None
  | _ =>
      match all_digits 0 digits with
      | Some z =>
          let v := if negative then (- z)%Z else z in
          if (Int_min <=? v)%Z && (v <=? Int_max)%Z then Some v else None
      | None => None
      end
  end.

(** [ProcessInfo.processInfo.environment["HTTP_PORT"]] parsed by [Int],
    3000 when unset or not a number. *)
Definition httpPort (env : Config.environment) : Z :=
  match env "HTTP_PORT" with
  | Some portStr =>
      match Int_of_string portStr with
      | Some port => port
      | None => 3000%Z
      end
  | None => 3000%Z
  end.

(** [s.split(separator: sep)]: the pieces between separators, empty
    pieces omitted; [piece] is the piece being read. *)
Fixpoint split_from (sep : ascii) (s : string) (piece : string) : list string :=
  match s with
  | EmptyString => match piece with EmptyString => [] | _ => [piece] end
  | String c rest =>
      if Ascii.eqb c sep
      then match piece with
           | EmptyString => split_from sep rest ""
           | _ => piece :: split_from sep rest ""
           end
      else split_from sep rest (piece ++ String c "")
  end.

Definition split (sep : ascii) (s : string) : list string := split_from sep s "".

(** [s.hasSuffix(suffix)] *)
Definition hasSuffix (suffix s : string) : bool :=
  (String.length suffix <=? String.length s)
  && String.eqb (substring (String.length s - String.length suffix) (String.length suffix) s)
       suffix.

(** The core number the loop reads off an entry's name, when the name
    starts with "/cpu/core/", ends with "/load", has at least four pieces
    and its third piece is an [Int]. *)
Definition core_of_name (name : string) : option Z :=
  if String.prefix "/cpu/core/" name && hasSuffix "/load" name then
    let parts := split "/" name in
    if 4 <=? List.length parts then Int_of_string (nth 2 parts "") else None
  else None.

(** What the loop reads of one element of the decoded array:
    [item["name"] as? String] and [item["value"] as? Double]. *)
Record Item : Type := {
  name : option string;
  value : option Q;
}.

(** The body of [for item in json], on the pair [(total, cores)]. *)
Definition visit (acc : option Q * list (Z * Q)) (item : Item) : option Q * list (Z * Q) :=
  match name item with
  | None => acc
  | Some n =>
      match (if String.eqb n "/cpu/usage/total" then value item else None) with
      | Some val => (Some val, snd acc)
      | None =>
          if String.prefix "/cpu/core/" n && hasSuffix "/load" n then
            match value item with
            | Some val =>
                let parts := split "/" n in
                if 4 <=? List.length parts then
                  match Int_of_string (nth 2 parts "") with
                  | Some coreNum => (fst acc, (snd acc ++ [(coreNum, val)])%list)
                  | None => acc
                  end
                else acc
            | None => acc
            end
          else acc
      end
  end.

(** [cores.sort { $0.0 < $1.0 }], as an insertion sort on core numbers. *)
Fixpoint insert (e : Z * Q) (l : list (Z * Q)) : list (Z * Q) :=
  match l with
  | [] => [e]
  | x :: rest => if (fst x <=? fst e)%Z then x :: insert e rest else e :: x :: rest
  end.

Fixpoint sort (l : list (Z * Q)) : list (Z * Q) :=
  match l with
  | [] => []
  | e :: rest => insert e (sort rest)
  end.

(** The loop and the sort of [fetchStats]. *)
Definition extract (json : list Item) : option Q * list (Z * Q) :=
  let '(total, cores) := fold_left visit json (None, []) in
  (total, sort cores).

(** The tint of the status item. *)
Definition tint (total : option Q) : string :=
  match total with
  | Some t =>
      if Qle_bool (80 # 1) t then "systemRed"
      else if Qle_bool (50 # 1) t then "systemOrange"
      else "systemGreen"
  | None => "systemGray"
  end.

(** [Int(x)] on a [Double]: truncation toward zero; a trap ([None]) when
    the value does not fit. *)
Definition Int_of_Double (x : Q) : option Z :=
  let t := if Qle_bool 0 x then Qfloor x else Qceiling x in
  if (Int_min <=? t)%Z && (t <=? Int_max)%Z then Some t else None.

(** [String(repeating: c, count: n)]: a trap on a negative count. *)
Definition repeating (c : string) (count : Z) : option string :=
  if (count <? 0)%Z then None
  else Some (String.concat "" (repeat c (Z.to_nat count))).

(** [makeBar]; the arithmetic is exact here, not rounded to doubles. *)
Definition makeBar (value : Q) : option string :=
  match Int_of_Double ((value / (100 # 1)) * (10 # 1))%Q with
  | None => None
  | Some filled =>
      match repeating "|" filled, repeating " " (10 - filled)%Z with
      | Some bars, Some blanks => Some ("[" ++ bars ++ blanks ++ "]")
      | _, _ => None
      end
  end.

End MenuBar.

(* ===================================================================== *)
(** ** Further vocabulary: what the poller recognises *)
(* ===================================================================== *)

(** The total an element carries: its value, when it is named
    "/cpu/usage/total" and the value is a number. *)
Definition total_entry (item : MenuBar.Item) : option Q :=
  match MenuBar.name item, MenuBar.value item with
  | Some n, Some v => if String.eqb n "/cpu/usage/total" then Some v else None
  | _, _ => None
  end.

(** The core entry an element carries: core number and value, when the
    name is a core address and the value is a number. *)
Definition core_entries (item : MenuBar.Item) : list (Z * Q) :=
  match MenuBar.name item, MenuBar.value item with
  | Some n, Some v =>
      match MenuBar.core_of_name n with
      | Some c => [(c, v)]
      | None => []
      end
  | _, _ => []
  end.

(** The total of the last element that carries one, [dflt] without one. *)
Definition last_total (json : list MenuBar.Item) (dflt : option Q) : option Q :=
  fold_left (fun t item => match total_entry item with Some v => Some v | None => t end)
    json dflt.

(** Ascending core numbers. *)
Definition by_core (a b : Z * Q) : Prop := (fst a <= fst b)%Z.

(** ** Concrete requests used in the examples *)

(** A parser that returns [data] whatever the body. *)
Definition parses_to (data : Receiver.json) : string -> completion Receiver.json :=
  fun _ => Returned data.

(** No string and no array counts as above zero. *)
Definition never_above_zero : Receiver.json -> bool := fun _ => false.

Definition post_stats (body : string) : TestServer.Request :=
  {| TestServer.method := "POST"; TestServer.url := "/cpu-stats"; TestServer.body := body |}.

(* ===================================================================== *)
(** * Properties *)
(* ===================================================================== *)

(** ** The UDP sink *)

Section SinkFacts.

Variable OSC_HOST : string.
Variable OSC_PORT : number.

Lemma port_after_nil (p : UDPPort) : port_after OSC_HOST OSC_PORT p [] = p.
Proof. destruct p; unfold port_after; simpl. now rewrite app_nil_r. Qed.

Lemma port_after_app (p : UDPPort) (l1 l2 : list OscMessage) :
  port_after OSC_HOST OSC_PORT (port_after OSC_HOST OSC_PORT p l1) l2
  = port_after OSC_HOST OSC_PORT p (l1 ++ l2).
Proof. unfold port_after; simpl. now rewrite map_app, app_assoc. Qed.

Lemma never_faults_after (p : UDPPort) (l : list OscMessage) :
  never_faults p -> never_faults (port_after OSC_HOST OSC_PORT p l).
Proof. intros H l' n m. apply H. Qed.

Lemma oscPort_send_ok (p : UDPPort) (m : OscMessage) :
  never_faults p ->
  oscPort_send OSC_HOST OSC_PORT m (Some p)
  = (Returned tt, Some (port_after OSC_HOST OSC_PORT p [m])).
Proof. intros H. unfold oscPort_send. now rewrite H. Qed.

Lemma forEach_send_core_ok (cs : list CoreStats) :
  forall p, never_faults p ->
    forEach (send_core OSC_HOST OSC_PORT) cs (Some p)
    = (Returned tt, Some (port_after OSC_HOST OSC_PORT p (map core_message cs))).
Proof.
  induction cs as [|c cs IH]; intros p Hp; simpl.
  - unfold ret. now rewrite port_after_nil.
  - unfold bindM, send_core. fold (core_message c).
    rewrite oscPort_send_ok by assumption.
    rewrite IH by now apply never_faults_after.
    now rewrite port_after_app.
Qed.

(** With an initialised port whose [send] does not throw, [sendStats]
    hands over exactly the messages of [batch], in that order, and
    reports success. *)
Lemma sendStats_ok (stats : CPUStats) (now : string) (p : UDPPort) :
  never_faults p ->
  sendStats OSC_HOST OSC_PORT stats now (Some p)
  = (Returned {| success := true; status := "OK"; error := None; sr_timestamp := now |},
     Some (port_after OSC_HOST OSC_PORT p (batch stats))).
Proof.
  intros Hp. unfold sendStats, try_catchM, sendStats_body, bindM at 1. simpl.
  unfold bindM.
  repeat (rewrite oscPort_send_ok by (repeat apply never_faults_after; assumption)).
  rewrite forEach_send_core_ok by (repeat apply never_faults_after; assumption).
  rewrite oscPort_send_ok by (repeat apply never_faults_after; assumption).
  unfold ret. repeat rewrite port_after_app. reflexivity.
Qed.

End SinkFacts.

(** C9.  When [oscPort] is still [null], [sendStats] throws nothing and
    sends nothing: it returns a failure result whose error detail is
    'OSC port not initialized', and [oscPort] stays [null]. *)
Theorem sendStats_port_not_initialized :
  forall (OSC_HOST : string) (OSC_PORT : number) (stats : CPUStats) (now : string),
    sendStats OSC_HOST OSC_PORT stats now None
    = (Returned {| success := false; status := "ERROR";
                   error := Some "OSC port not initialized"; sr_timestamp := now |},
       None).
Proof. intros. reflexivity. Qed.




(** ** The collector *)

Lemma bind_Returned {A B : Type} (c : completion A) (k : A -> completion B) (b : B) :
  bind c k = Returned b -> exists a, c = Returned a /\ k a = Returned b.
Proof. destruct c as [a|e]; simpl; intros H; [now exists a | discriminate]. Qed.

Ltac invert_bind H :=
  let a := fresh "v" in
  let Ha := fresh "Hv" in
  apply bind_Returned in H; destruct H as (a & Ha & H).

Lemma collect_core_index (c : si.CurrentLoadCpuData) (index : nat) (r : CoreStats) :
  collect_core c index = Returned r -> core r = index.
Proof.
  unfold collect_core. intros H. do 4 invert_bind H. now inversion H.
Qed.

(** [map] keeps the length and numbers the entries from the start index. *)
Lemma map_indexed_shape (xs : list si.CurrentLoadCpuData) :
  forall index ys,
    map_indexed collect_core index xs = Returned ys ->
    List.length ys = List.length xs /\ map core ys = seq index (List.length xs).
Proof.
  induction xs as [|x xs IH]; intros index ys H; simpl in H.
  - inversion H. now split.
  - invert_bind H. invert_bind H. inversion H; subst ys. clear H.
    apply collect_core_index in Hv. apply IH in Hv0. destruct Hv0 as [Hl Hm].
    simpl. now rewrite Hl, Hm, Hv.
Qed.

(** What a returned snapshot owes to the host's answers. *)
Lemma collectCPUStats_Returned (host : Host) (now : string) (stats : CPUStats) :
  collectCPUStats host now = Returned stats ->
  exists currentLoad cpuInfo,
    si_currentLoad host = Returned currentLoad
    /\ si_cpu host = Returned cpuInfo
    /\ round2 (si.currentLoad currentLoad) = Returned (total (usage stats))
    /\ round2 (si.currentLoadUser currentLoad) = Returned (user (usage stats))
    /\ round2 (si.currentLoadSystem currentLoad) = Returned (system (usage stats))
    /\ round2 (si.currentLoadIdle currentLoad) = Returned (idle (usage stats))
    /\ map_indexed collect_core 0 (si.cpus currentLoad) = Returned (perCore stats)
    /\ cores (cpu stats) = si.cores cpuInfo
    /\ model (cpu stats) = si.brand cpuInfo
    /\ timestamp stats = now.
Proof.
  unfold collectCPUStats, try_catch.
  destruct (collectCPUStats_body host now) as [s|e] eqn:Hb; [|discriminate].
  intros H; inversion H; subst s; clear H.
  unfold collectCPUStats_body in Hb.
  do 7 invert_bind Hb. inversion Hb; subst stats; simpl.
  exists v, v0. repeat split; assumption.
Qed.

Lemma collectCPUStats_perCore (host : Host) (now : string) (stats : CPUStats) :
  collectCPUStats host now = Returned stats ->
  map core (perCore stats) = seq 0 (List.length (perCore stats)).
Proof.
  intros H. apply collectCPUStats_Returned in H.
  destruct H as (cl & ci & _ & _ & _ & _ & _ & _ & Hm & _).
  apply map_indexed_shape in Hm. destruct Hm as [Hl Hm]. now rewrite Hm, Hl.
Qed.

(** ** The message sequence *)

Lemma batch_length (stats : CPUStats) :
  List.length (batch stats) = 7 + List.length (perCore stats).
Proof.
  unfold batch. rewrite !length_app, length_map. simpl. lia.
Qed.

Lemma batch_addresses (stats : CPUStats) :
  map address (batch stats)
  = (head_addresses ++ map core_address (map core (perCore stats))
       ++ [ "/cpu/timestamp" ])%list.
Proof.
  unfold batch. rewrite !map_app, !map_map. reflexivity.
Qed.

(** C2, as stated, fails on a snapshot the collector builds when the
    host lists two cores and reports ten: nine datagrams go out, not
    seventeen. *)
Lemma sendStats_count_counterexample :
  collectCPUStats host_hotplug "2025-11-12T01:23:45.789Z" = Returned snapshot_hotplug
  /\ cores (cpu snapshot_hotplug) = 10%Z
  /\ (exists p,
         snd (sendStats "localhost" (Num (9877 # 1)) snapshot_hotplug "t"
                (Some (new_UDPPort no_fault))) = Some p
         /\ List.length (sent p) = 9)
  /\ 9 <> 7 + Z.to_nat (cores (cpu snapshot_hotplug)).
Proof.
  split; [reflexivity|]. split; [reflexivity|]. split.
  - eexists. split; reflexivity.
  - simpl. lia.
Qed.

(** C2, amended.  With an initialised port whose [send] does not throw,
    [sendStats] reports success and hands over exactly
    [7 + perCore.length] messages in a fixed order: the four usage
    messages, model, cores, one [/cpu/core/{core}/load] per entry of
    [perCore] in array order, and [/cpu/timestamp] last.  On a snapshot
    built by the collector the core addresses are numbered
    [0 .. perCore.length - 1], and when [perCore.length] equals the
    reported core count the batch has [7 + coreCount] messages. *)
Theorem sendStats_fixed_order :
  forall OSC_HOST OSC_PORT stats now p,
    never_faults p ->
    sendStats OSC_HOST OSC_PORT stats now (Some p)
    = (Returned {| success := true; status := "OK"; error := None; sr_timestamp := now |},
       Some (port_after OSC_HOST OSC_PORT p (batch stats)))
    /\ List.length (batch stats) = 7 + List.length (perCore stats)
    /\ map address (batch stats)
       = (head_addresses ++ map core_address (map core (perCore stats))
            ++ [ "/cpu/timestamp" ])%list
    /\ last (map address (batch stats)) "" = "/cpu/timestamp"
    /\ (forall host collectedAt,
           collectCPUStats host collectedAt = Returned stats ->
           map address (batch stats) = fixed_order (List.length (perCore stats)))
    /\ (Z.of_nat (List.length (perCore stats)) = cores (cpu stats) ->
        Z.of_nat (List.length (batch stats)) = (7 + cores (cpu stats))%Z).
Proof.
  intros OSC_HOST OSC_PORT stats now p Hp.
  split; [now apply sendStats_ok|].
  split; [apply batch_length|].
  split; [apply batch_addresses|].
  split.
  - rewrite batch_addresses.
    rewrite app_assoc. apply last_last.
  - split.
    + intros host collectedAt H. rewrite batch_addresses.
      apply collectCPUStats_perCore in H. rewrite H. reflexivity.
    + intros H. rewrite batch_length, <- H. lia.
Qed.

(** C2 amended, on the README's 10-core host: seventeen messages. *)
Lemma sendStats_fixed_order_witness :
  never_faults (new_UDPPort no_fault)
  /\ collectCPUStats host_m1 "2025-11-12T01:23:45.789Z" = Returned snapshot_m1
  /\ Z.of_nat (List.length (perCore snapshot_m1)) = cores (cpu snapshot_m1)
  /\ List.length (batch snapshot_m1) = 17
  /\ map address (batch snapshot_m1) = fixed_order 10
  /\ Z.of_nat (List.length (batch snapshot_m1)) = (7 + 10)%Z.
Proof.
  assert (Hp : never_faults (new_UDPPort no_fault)) by (intros l n m; reflexivity).
  assert (Hc : collectCPUStats host_m1 "2025-11-12T01:23:45.789Z" = Returned snapshot_m1)
    by reflexivity.
  assert (Hn : Z.of_nat (List.length (perCore snapshot_m1)) = cores (cpu snapshot_m1))
    by reflexivity.
  split; [exact Hp|]. split; [exact Hc|]. split; [exact Hn|].
  destruct (sendStats_fixed_order "localhost" (Num (9877 # 1)) snapshot_m1 "t"
              (new_UDPPort no_fault) Hp) as (_ & Hlen & _ & _ & Hcol & Hcount).
  split; [rewrite Hlen; reflexivity|].
  split; [exact (Hcol host_m1 "2025-11-12T01:23:45.789Z" Hc) | exact (Hcount Hn)].
Defined.

(** ** Rounding *)

Lemma Qmake_100 (n : Z) : (n # 100 == inject_Z n * (1 # 100))%Q.
Proof. unfold Qeq, inject_Z; simpl. lia. Qed.

Lemma hundredths_close (a : Q) :
  (Qabs (inject_Z (Qfloor (inject_Z 100 * a + (1 # 2))) * (1 # 100) - a) <= 1 # 200)%Q.
Proof.
  set (x := (inject_Z 100 * a + (1 # 2))%Q).
  pose proof (Qfloor_le x) as Hle.
  pose proof (Qlt_floor x) as Hlt.
  rewrite inject_Z_plus in Hlt.
  apply Qabs_Qle_condition.
  unfold x in *. change (inject_Z 100) with (100 # 1)%Q in *.
  change (inject_Z 1) with (1 # 1)%Q in *.
  split; lra.
Qed.

(** Below [10^21], [parseFloat(x.toFixed(2))] is a number of hundredths
    within half a hundredth of [x]. *)
Lemma parseFloat_toFixed2_rounds (q : Q) :
  (Qabs q < toFixed_limit)%Q ->
  exists n : Z,
    parseFloat_toFixed2 (Num q) = Num (n # 100)
    /\ (Qabs ((n # 100) - q) <= 1 # 200)%Q.
Proof.
  intros Hlim. unfold parseFloat_toFixed2.
  destruct (Qle_bool toFixed_limit (Qabs q)) eqn:Hbig.
  - apply Qle_bool_iff in Hbig. exfalso. apply (Qlt_not_le _ _ Hlim Hbig).
  - destruct (Qle_bool 0 q) eqn:Hsign.
    + apply Qle_bool_iff in Hsign. eexists. split; [reflexivity|].
      unfold hundredths. rewrite (Qabs_pos q Hsign). rewrite Qmake_100.
      apply hundredths_close.
    + assert (Hneg : (q <= 0)%Q).
      { destruct (Qlt_le_dec q 0) as [H|H]; [now apply Qlt_le_weak|].
        apply Qle_bool_iff in H. congruence. }
      eexists. split; [reflexivity|].
      unfold hundredths. rewrite (Qabs_neg q Hneg). rewrite Qmake_100.
      rewrite inject_Z_opp.
      pose proof (hundredths_close (- q)) as H.
      apply Qabs_Qle_condition in H. apply Qabs_Qle_condition.
      destruct H as [H1 H2]. split; lra.
Qed.

Lemma round2_rounds (v : jsval) (x : number) :
  percentage v -> round2 v = Returned x -> rounds_to v x.
Proof.
  intros (q & -> & Hq) H. unfold round2 in H.
  destruct (parseFloat_toFixed2_rounds q Hq) as (n & Hn & Hc).
  rewrite Hn in H. injection H as <-.
  exists q, n. split; [reflexivity | split; [reflexivity | exact Hc]].
Qed.

Lemma round2_defined (v : jsval) (x : number) :
  round2 v = Returned x -> defined v = true.
Proof. destruct v; simpl; [discriminate | reflexivity]. Qed.

Lemma round2_of_defined (v : jsval) :
  defined v = true -> exists x, round2 v = Returned x.
Proof. destruct v; simpl; [discriminate | eexists; reflexivity]. Qed.

Lemma round2_Threw (v : jsval) (e : thrown) :
  round2 v = Threw e -> defined v = false.
Proof. destruct v; simpl; [reflexivity | discriminate]. Qed.

(** ** What the collector accepts *)

Lemma collect_core_Returned (c : si.CurrentLoadCpuData) (index : nat) (r : CoreStats) :
  collect_core c index = Returned r ->
  core_complete c = true
  /\ round2 (si.load c) = Returned (load r)
  /\ round2 (si.loadUser c) = Returned (loadUser r)
  /\ round2 (si.loadSystem c) = Returned (loadSystem r)
  /\ round2 (si.loadIdle c) = Returned (loadIdle r).
Proof.
  unfold collect_core, core_complete. intros H. do 4 invert_bind H.
  inversion H; subst r; simpl.
  rewrite (round2_defined _ _ Hv), (round2_defined _ _ Hv0),
    (round2_defined _ _ Hv1), (round2_defined _ _ Hv2).
  repeat split; assumption.
Qed.

Lemma collect_core_of_complete (c : si.CurrentLoadCpuData) (index : nat) :
  core_complete c = true -> exists r, collect_core c index = Returned r.
Proof.
  unfold core_complete, collect_core. intros H.
  apply andb_prop in H; destruct H as [H H4].
  apply andb_prop in H; destruct H as [H H3].
  apply andb_prop in H; destruct H as [H1 H2].
  destruct (round2_of_defined _ H1) as [x1 ->].
  destruct (round2_of_defined _ H2) as [x2 ->].
  destruct (round2_of_defined _ H3) as [x3 ->].
  destruct (round2_of_defined _ H4) as [x4 ->].
  simpl. eexists; reflexivity.
Qed.

Lemma map_indexed_Returned (xs : list si.CurrentLoadCpuData) :
  forall index ys,
    map_indexed collect_core index xs = Returned ys ->
    forallb core_complete xs = true
    /\ Forall2 (fun c r =>
                  round2 (si.load c) = Returned (load r)
                  /\ round2 (si.loadUser c) = Returned (loadUser r)
                  /\ round2 (si.loadSystem c) = Returned (loadSystem r)
                  /\ round2 (si.loadIdle c) = Returned (loadIdle r)) xs ys.
Proof.
  induction xs as [|x xs IH]; intros index ys H; simpl in H.
  - inversion H. split; [reflexivity | constructor].
  - invert_bind H. invert_bind H. inversion H; subst ys. clear H.
    apply collect_core_Returned in Hv. destruct Hv as [Hc Hf].
    apply IH in Hv0. destruct Hv0 as [Hall HF].
    simpl. rewrite Hc, Hall. split; [reflexivity | now constructor].
Qed.

Lemma map_indexed_of_complete (xs : list si.CurrentLoadCpuData) :
  forall index,
    forallb core_complete xs = true ->
    exists ys, map_indexed collect_core index xs = Returned ys.
Proof.
  induction xs as [|x xs IH]; intros index H; simpl in *.
  - eexists; reflexivity.
  - apply andb_prop in H; destruct H as [Hx Hxs].
    destruct (collect_core_of_complete x index Hx) as [r ->].
    destruct (IH (S index) Hxs) as [ys ->].
    simpl. eexists; reflexivity.
Qed.

(** Whatever the collector throws is an [Error] with the prefixed message. *)
Lemma collectCPUStats_Threw (host : Host) (now : string) (e : thrown) :
  collectCPUStats host now = Threw e ->
  exists detail, e = ErrorObj ("Failed to collect CPU stats: " ++ detail).
Proof.
  unfold collectCPUStats, try_catch.
  destruct (collectCPUStats_body host now) as [s|e0]; [discriminate|].
  intros H; inversion H. now exists (errorMessage e0).
Qed.

(** C4, as stated, fails: a host that reports ten cores and lists two
    gets a snapshot, with two entries and a core count of ten, and a host
    with a negative percentage gets a snapshot that carries it. *)
Lemma collectCPUStats_validation_counterexample :
  (exists l c,
      si_currentLoad host_hotplug = Returned l /\ si_cpu host_hotplug = Returned c
      /\ List.length (si.cpus l) = 2 /\ si.cores c = 10%Z)
  /\ collectCPUStats host_hotplug "2025-11-12T01:23:45.789Z" = Returned snapshot_hotplug
  /\ List.length (perCore snapshot_hotplug) = 2
  /\ cores (cpu snapshot_hotplug) = 10%Z
  /\ Z.of_nat (List.length (perCore snapshot_hotplug)) <> cores (cpu snapshot_hotplug)
  /\ (exists stats,
         collectCPUStats host_negative "2025-11-12T01:23:45.789Z" = Returned stats
         /\ map load (perCore stats) = [Num (-150 # 100)]).
Proof.
  split; [do 2 eexists; repeat split|].
  split; [reflexivity|]. split; [reflexivity|]. split; [reflexivity|].
  split; [simpl; lia|].
  eexists. split; reflexivity.
Qed.

(** C4, amended.  [collectCPUStats] returns a snapshot exactly when both
    host queries succeed and no percentage field is missing; otherwise it
    throws an [Error] whose message starts with 'Failed to collect CPU
    stats: '.  It compares nothing: a returned snapshot has as many
    [perCore] entries as the host listed, numbered from 0, and the core
    count the host reported. *)
Theorem collectCPUStats_checks :
  forall host now,
    ((exists stats, collectCPUStats host now = Returned stats)
     <-> (exists l c,
             si_currentLoad host = Returned l /\ si_cpu host = Returned c
             /\ complete l = true))
    /\ (forall e,
           collectCPUStats host now = Threw e ->
           exists detail, e = ErrorObj ("Failed to collect CPU stats: " ++ detail))
    /\ (forall stats,
           collectCPUStats host now = Returned stats ->
           exists l c,
             si_currentLoad host = Returned l /\ si_cpu host = Returned c
             /\ List.length (perCore stats) = List.length (si.cpus l)
             /\ map core (perCore stats) = seq 0 (List.length (si.cpus l))
             /\ cores (cpu stats) = si.cores c).
Proof.
  intros host now. split; [split|split].
  - intros [stats H]. apply collectCPUStats_Returned in H.
    destruct H as (l & c & Hl & Hc & H1 & H2 & H3 & H4 & Hm & _).
    exists l, c. split; [assumption|]. split; [assumption|].
    unfold complete.
    rewrite (round2_defined _ _ H1), (round2_defined _ _ H2),
      (round2_defined _ _ H3), (round2_defined _ _ H4).
    apply map_indexed_Returned in Hm. now rewrite (proj1 Hm).
  - intros (l & c & Hl & Hc & Hcomplete).
    unfold complete in Hcomplete.
    apply andb_prop in Hcomplete; destruct Hcomplete as [H Hcpus].
    apply andb_prop in H; destruct H as [H H4].
    apply andb_prop in H; destruct H as [H H3].
    apply andb_prop in H; destruct H as [H1 H2].
    unfold collectCPUStats, collectCPUStats_body. rewrite Hl, Hc. simpl.
    destruct (round2_of_defined _ H1) as [x1 ->].
    destruct (round2_of_defined _ H2) as [x2 ->].
    destruct (round2_of_defined _ H3) as [x3 ->].
    destruct (round2_of_defined _ H4) as [x4 ->].
    destruct (map_indexed_of_complete _ 0 Hcpus) as [ys ->].
    simpl. eexists; reflexivity.
  - apply collectCPUStats_Threw.
  - intros stats H. apply collectCPUStats_Returned in H.
    destruct H as (l & c & Hl & Hc & _ & _ & _ & _ & Hm & Hcores & _).
    exists l, c. apply map_indexed_shape in Hm.
    destruct Hm as [Hlen Hseq]. repeat split; assumption.
Qed.

(** C4 amended, on the host whose queries disagree and on the host whose
    load query is rejected. *)
Lemma collectCPUStats_checks_witness :
  (exists l c,
      si_currentLoad host_hotplug = Returned l /\ si_cpu host_hotplug = Returned c
      /\ List.length (perCore snapshot_hotplug) = List.length (si.cpus l)
      /\ map core (perCore snapshot_hotplug) = seq 0 (List.length (si.cpus l))
      /\ cores (cpu snapshot_hotplug) = si.cores c)
  /\ (exists detail,
         ErrorObj "Failed to collect CPU stats: spawn sysctl ENOENT"
         = ErrorObj ("Failed to collect CPU stats: " ++ detail)).
Proof.
  split.
  - apply (proj2 (proj2 (collectCPUStats_checks host_hotplug "2025-11-12T01:23:45.789Z"))
             snapshot_hotplug).
    reflexivity.
  - apply (proj1 (proj2 (collectCPUStats_checks host_down "2025-11-12T01:23:45.789Z"))
             (ErrorObj "Failed to collect CPU stats: spawn sysctl ENOENT")).
    reflexivity.
Defined.

(** C6.  In every snapshot the collector returns for host percentages
    (finite numbers below [10^21]), each percentage field, the four
    aggregate ones and the four of every core, is the host's value
    rounded to hundredths: a number with at most two decimal places, not
    further than half a hundredth from the input. *)
Theorem collectCPUStats_two_decimals :
  forall host now stats l,
    collectCPUStats host now = Returned stats ->
    si_currentLoad host = Returned l ->
    host_percentages l ->
    rounds_to (si.currentLoad l) (total (usage stats))
    /\ rounds_to (si.currentLoadUser l) (user (usage stats))
    /\ rounds_to (si.currentLoadSystem l) (system (usage stats))
    /\ rounds_to (si.currentLoadIdle l) (idle (usage stats))
    /\ Forall2 core_rounded (si.cpus l) (perCore stats).
Proof.
  intros host now stats l H Hl (P1 & P2 & P3 & P4 & Pc).
  apply collectCPUStats_Returned in H.
  destruct H as (l' & c & Hl' & _ & H1 & H2 & H3 & H4 & Hm & _).
  rewrite Hl in Hl'. inversion Hl'; subst l'. clear Hl'.
  repeat split; try (now apply round2_rounds).
  apply map_indexed_Returned in Hm. destruct Hm as [_ HF].
  induction HF as [|x y xs ys Hxy HF IH]; [constructor|].
  inversion Pc as [|? ? Px Pxs]; subst.
  constructor; [|now apply IH].
  destruct Hxy as (R1 & R2 & R3 & R4). destruct Px as (Q1 & Q2 & Q3 & Q4).
  repeat split; now apply round2_rounds.
Qed.

Lemma percentage_percent (n : Z) :
  (Z.abs n < 10 ^ 24)%Z -> percentage (percent n).
Proof.
  intros H. exists (n # 1000)%Q. split; [reflexivity|].
  unfold toFixed_limit, Qlt, Qabs, inject_Z; simpl Qnum; simpl Qden.
  change (Z.pos 1000) with 1000%Z.
  change (10 ^ 24)%Z with (10 ^ 21 * 1000)%Z in H. lia.
Qed.

(** C6, on the README's 10-core host: 46.454 becomes 46.45, and so on. *)
Lemma collectCPUStats_two_decimals_witness :
  host_percentages (load_with ten_cores)
  /\ total (usage snapshot_m1) = Num (4645 # 100)
  /\ rounds_to (percent 46454) (total (usage snapshot_m1))
  /\ Forall2 core_rounded ten_cores (perCore snapshot_m1).
Proof.
  assert (Hp : host_percentages (load_with ten_cores)).
  { unfold host_percentages, load_with, ten_cores, core_load; simpl.
    repeat split;
      repeat (first [ apply Forall_nil | apply Forall_cons | split ]);
      apply percentage_percent; vm_compute; reflexivity. }
  split; [exact Hp|]. split; [reflexivity|].
  destruct (collectCPUStats_two_decimals host_m1 "2025-11-12T01:23:45.789Z"
              snapshot_m1 (load_with ten_cores) eq_refl eq_refl Hp)
    as (H1 & _ & _ & _ & Hc).
  split; [exact H1 | exact Hc].
Defined.

(** ** Configuration *)

(** C8, as stated, fails: [INTERVAL_MS=0] gives an interval of 0, and
    [INTERVAL_MS=-5] one of -5; no minimum of 1 is applied. *)
Lemma INTERVAL_MS_minimum_counterexample :
  Config.INTERVAL_MS (Config.env_with "INTERVAL_MS" "0") = Num (0 # 1)
  /\ Config.INTERVAL_MS (Config.env_with "INTERVAL_MS" "-5") = Num (-5 # 1)
  /\ ~ (exists q, Config.INTERVAL_MS (Config.env_with "INTERVAL_MS" "0") = Num q
                  /\ (1 <= q)%Q).
Proof.
  split; [reflexivity|]. split; [reflexivity|].
  intros (q & H & Hq). vm_compute in H. inversion H; subst q.
  revert Hq. unfold Qle; simpl. lia.
Qed.

(** C8, amended.  [INTERVAL_MS] is 10000 when the variable is unset or
    empty; otherwise it is [parseInt] of the variable's value in base 10,
    taken as it is, with no minimum: a zero, a negative number or [NaN]
    passes through. *)
Theorem INTERVAL_MS_default :
  forall env,
    (env "INTERVAL_MS" = None -> Config.INTERVAL_MS env = Num (10000 # 1))
    /\ (env "INTERVAL_MS" = Some "" -> Config.INTERVAL_MS env = Num (10000 # 1))
    /\ (forall v, env "INTERVAL_MS" = Some v -> v <> "" ->
                  Config.INTERVAL_MS env = Config.parseInt10 v).
Proof.
  intros env. unfold Config.INTERVAL_MS. repeat split.
  - intros ->. reflexivity.
  - intros ->. reflexivity.
  - intros v -> Hv. destruct v; [congruence | reflexivity].
Qed.

(** C8 amended, on the empty environment and on three settings. *)
Lemma INTERVAL_MS_default_witness :
  Config.INTERVAL_MS Config.env_empty = Num (10000 # 1)
  /\ Config.INTERVAL_MS (Config.env_with "INTERVAL_MS" "250") = Num (250 # 1)
  /\ Config.INTERVAL_MS (Config.env_with "INTERVAL_MS" "0") = Num (0 # 1)
  /\ Config.INTERVAL_MS (Config.env_with "INTERVAL_MS" "soon") = NaN.
Proof.
  split; [apply (proj1 (INTERVAL_MS_default Config.env_empty)); reflexivity|].
  split; [|split].
  - rewrite (proj2 (proj2 (INTERVAL_MS_default (Config.env_with "INTERVAL_MS" "250"))) "250");
      [reflexivity | reflexivity | discriminate].
  - rewrite (proj2 (proj2 (INTERVAL_MS_default (Config.env_with "INTERVAL_MS" "0"))) "0");
      [reflexivity | reflexivity | discriminate].
  - rewrite (proj2 (proj2 (INTERVAL_MS_default (Config.env_with "INTERVAL_MS" "soon"))) "soon");
      [reflexivity | reflexivity | discriminate].
Defined.

(** ** The HTTP pull endpoint *)

Lemma after_cycles_last (snapshots : list CPUStats) (s : CPUStats) :
  HttpPull.after_cycles (snapshots ++ [s]) = Some s.
Proof. unfold HttpPull.after_cycles. now rewrite fold_left_app. Qed.

Lemma json_array_mirrors (s : CPUStats) :
  HttpPull.json_array s = flat_map HttpPull.mirror (batch s).
Proof.
  unfold HttpPull.json_array, batch. simpl. repeat f_equal.
  rewrite flat_map_app. simpl.
  f_equal. induction (perCore s) as [|c cs IH]; simpl; [reflexivity | now rewrite IH].
Qed.

(** C7.  Before any cycle has completed, [GET /] answers 503 with the
    body [{"error": "No data available yet"}]; once cycles have completed
    it answers 200 with a JSON array that mirrors, name for name and value
    for value, the messages the UDP sink sends for the latest snapshot. *)
Theorem GET_root_latest_snapshot :
  HttpPull.GET_root (HttpPull.after_cycles [])
  = {| HttpPull.statusCode := 503; HttpPull.body := HttpPull.ErrorBody "No data available yet" |}
  /\ (forall earlier latest,
         HttpPull.GET_root (HttpPull.after_cycles (earlier ++ [latest]))
         = {| HttpPull.statusCode := 200;
              HttpPull.body := HttpPull.ArrayBody (flat_map HttpPull.mirror (batch latest)) |})
  /\ (forall earlier latest,
         exists entries,
           HttpPull.body (HttpPull.GET_root (HttpPull.after_cycles (earlier ++ [latest])))
           = HttpPull.ArrayBody entries
           /\ map HttpPull.name entries = map address (batch latest)
           /\ List.length entries = 7 + List.length (perCore latest)).
Proof.
  split; [reflexivity|]. split.
  - intros earlier latest. rewrite after_cycles_last. simpl.
    now rewrite json_array_mirrors.
  - intros earlier latest. rewrite after_cycles_last. simpl.
    eexists. split; [reflexivity|]. split.
    + unfold HttpPull.json_array, batch. rewrite !map_app, !map_map. reflexivity.
    + unfold HttpPull.json_array. rewrite !length_app, length_map. simpl. lia.
Qed.

(** The server of [test-server.ts] is the receiver of the HTTP-POST
    variant, not the pull endpoint: it answers [GET /] with 404. *)
Lemma test_server_GET_root (parse_and_log : string -> completion unit) (body : string) :
  TestServer.server parse_and_log
    {| TestServer.method := "GET"; TestServer.url := "/"; TestServer.body := body |}
  = {| TestServer.statusCode := 404;
       TestServer.responseBody := [("status", "error"); ("message", "Not found")] |}.
Proof. reflexivity. Qed.

(** ** [sendStats] as one uninterrupted run of sends *)

Lemma firstn_min_length {A : Type} (l : list A) (k : nat) :
  firstn (Nat.min k (List.length l)) l = firstn k l.
Proof.
  destruct (Nat.le_gt_cases k (List.length l)) as [H|H].
  - now rewrite Nat.min_l.
  - rewrite Nat.min_r by lia. rewrite firstn_all. symmetry. apply firstn_all2. lia.
Qed.

Section Sends.

Variable OSC_HOST : string.
Variable OSC_PORT : number.

Lemma sends_ret {A : Type} (a : A) : sends OSC_HOST OSC_PORT (ret a) [].
Proof.
  intros p. exists (Returned a), 0. simpl. unfold ret.
  rewrite port_after_nil. split; [reflexivity | reflexivity].
Qed.

Lemma sends_require_port : sends OSC_HOST OSC_PORT require_port [].
Proof.
  intros p. exists (Returned tt), 0. simpl.
  rewrite port_after_nil. split; reflexivity.
Qed.

Lemma sends_oscPort_send (m : OscMessage) :
  sends OSC_HOST OSC_PORT (oscPort_send OSC_HOST OSC_PORT m) [m].
Proof.
  intros p. unfold oscPort_send.
  destruct (send_fault p (sent p) (closeCalls p) m) as [e|].
  - exists (Threw e), 0. simpl. rewrite port_after_nil.
    split; [reflexivity | discriminate].
  - exists (Returned tt), 1. split; reflexivity.
Qed.

Lemma sends_bindM {A B : Type} (c : M A) (k : A -> M B) (l1 l2 : list OscMessage) :
  sends OSC_HOST OSC_PORT c l1 -> (forall a, sends OSC_HOST OSC_PORT (k a) l2) -> sends OSC_HOST OSC_PORT (bindM c k) (l1 ++ l2).
Proof.
  intros Hc Hk p. unfold bindM.
  destruct (Hc p) as (r1 & k1 & E1 & F1). rewrite E1.
  destruct r1 as [a|e].
  - specialize (F1 a eq_refl). rewrite F1.
    destruct (Hk a (port_after OSC_HOST OSC_PORT p l1)) as (r2 & k2 & E2 & F2).
    exists r2, (List.length l1 + k2). rewrite E2, port_after_app.
    rewrite firstn_app_2. split; [reflexivity|].
    intros b Hb. now rewrite (F2 b Hb).
  - exists (Threw e), (Nat.min k1 (List.length l1)). split; [|discriminate].
    rewrite firstn_app.
    replace (Nat.min k1 (List.length l1) - List.length l1) with 0 by lia.
    rewrite firstn_O, app_nil_r.
    now rewrite firstn_min_length.
Qed.

Lemma sends_forEach_send_core (cs : list CoreStats) :
  sends OSC_HOST OSC_PORT (forEach (send_core OSC_HOST OSC_PORT) cs) (map core_message cs).
Proof.
  induction cs as [|c cs IH]; simpl.
  - apply sends_ret.
  - apply (sends_bindM _ _ [core_message c]); [apply sends_oscPort_send | intros _; exact IH].
Qed.

(** The [try] block of [sendStats] hands over the messages of [batch]. *)
Lemma sends_sendStats_body (stats : CPUStats) (now : string) :
  sends OSC_HOST OSC_PORT (sendStats_body OSC_HOST OSC_PORT stats now) (batch stats).
Proof.
  unfold sendStats_body.
  apply (sends_bindM _ _ [] (batch stats)); [apply sends_require_port | intros _].
  unfold batch. cbn [app].
  do 6 (apply (sends_bindM _ _ [_]); [apply sends_oscPort_send | intros _]).
  apply sends_bindM; [apply sends_forEach_send_core | intros _].
  replace [{| address := "/cpu/timestamp"; args := [ArgS (timestamp stats)] |}]
    with ([{| address := "/cpu/timestamp"; args := [ArgS (timestamp stats)] |}] ++ [])%list
    by reflexivity.
  apply sends_bindM; [apply sends_oscPort_send | intros _; apply sends_ret].
Qed.

(** [sendStats] appends a prefix of the batch to the log of an
    initialised port, the whole batch when it reports success. *)
Lemma sendStats_prefix (stats : CPUStats) (now : string) (p : UDPPort) :
  exists r k,
    sendStats OSC_HOST OSC_PORT stats now (Some p)
    = (Returned r, Some (port_after OSC_HOST OSC_PORT p (firstn k (batch stats))))
    /\ (success r = true -> firstn k (batch stats) = batch stats).
Proof.
  unfold sendStats, try_catchM.
  destruct (sends_sendStats_body stats now p) as (c & k & E & F). rewrite E.
  destruct c as [r|e].
  - exists r, k. split; [reflexivity | intros _; now apply (F r)].
  - eexists; exists k. split; [reflexivity | discriminate].
Qed.

End Sends.

(** ** The scheduler *)

Lemma lookup_remove (id : nat) (l : list (nat * Phase)) :
  lookup id (remove id l) = None.
Proof.
  induction l as [|[i p] l IH]; simpl; [reflexivity|].
  destruct (Nat.eqb i id) eqn:E; simpl; [exact IH|]. now rewrite E.
Qed.

Lemma lookup_set_phase (id : nat) (p : Phase) (l : list (nat * Phase)) :
  lookup id l <> None -> lookup id (set_phase id p l) = Some p.
Proof.
  induction l as [|[i q] l IH]; simpl; [congruence|].
  destruct (Nat.eqb i id) eqn:E; simpl; rewrite E; [reflexivity | exact IH].
Qed.

Lemma lookup_app_fresh (n : nat) (p : Phase) (l : list (nat * Phase)) :
  ids_below n l -> lookup n (l ++ [(n, p)]) = Some p.
Proof.
  induction 1 as [|[i q] l Hi _ IH]; simpl.
  - now rewrite Nat.eqb_refl.
  - simpl in Hi. destruct (Nat.eqb i n) eqn:E; [|exact IH].
    apply Nat.eqb_eq in E. lia.
Qed.

Lemma ids_below_remove (n id : nat) (l : list (nat * Phase)) :
  ids_below n l -> ids_below n (remove id l).
Proof.
  unfold ids_below, remove. rewrite !Forall_forall. intros H e He.
  apply filter_In in He. now apply H.
Qed.

Lemma ids_below_set_phase (n id : nat) (p : Phase) (l : list (nat * Phase)) :
  ids_below n l -> ids_below n (set_phase id p l).
Proof.
  unfold ids_below, set_phase. intros H. apply Forall_map.
  eapply Forall_impl; [|exact H]. intros [i q] Hi; simpl in *.
  now destruct (Nat.eqb i id).
Qed.

Lemma ids_below_start (n : nat) (l : list (nat * Phase)) :
  ids_below n l -> ids_below (S n) (l ++ [(n, Collecting)]).
Proof.
  unfold ids_below. intros H. apply Forall_app. split.
  - eapply Forall_impl; [|exact H]. intros e He; simpl in *. lia.
  - constructor; [simpl; lia | constructor].
Qed.

Section Scheduler.

Variable OSC_HOST : string.
Variable OSC_PORT : number.

Lemma run_app (s : AppState) (evs1 evs2 : list Event) :
  run OSC_HOST OSC_PORT s (evs1 ++ evs2)
  = run OSC_HOST OSC_PORT (run OSC_HOST OSC_PORT s evs1) evs2.
Proof. unfold run. apply fold_left_app. Qed.

Lemma running_mounted (fault : list Datagram -> nat -> OscMessage -> option thrown)
    (now : string) :
  running (App_mounted fault now).
Proof.
  unfold running; simpl. repeat split.
  - eexists; split; reflexivity.
  - repeat constructor.
Qed.

(** The datagrams one event adds to the port's log: none, or a prefix
    of one snapshot's batch. *)
Lemma step_wire (s : AppState) (ev : Event) :
  wire (step OSC_HOST OSC_PORT s ev) = wire s
  \/ exists stats k,
      wire (step OSC_HOST OSC_PORT s ev)
      = (wire s ++ map (datagram OSC_HOST OSC_PORT) (firstn k (batch stats)))%list.
Proof.
  unfold step. destruct (exited s); [now left|].
  destruct ev as [|id host collectedAt now|id now| |].
  - destruct (intervalActive s); now left.
  - destruct (lookup id (inFlight s)) as [[|r]|]; try now left.
    unfold monitor_collected.
    destruct (collectCPUStats host collectedAt) as [stats|e]; [|now left].
    destruct (oscPort s) as [p|] eqn:Hp.
    + destruct (sendStats_prefix OSC_HOST OSC_PORT stats now p) as (r & k & E & _).
      rewrite E. right. exists stats, k. unfold wire. rewrite Hp. reflexivity.
    + left. unfold wire. rewrite Hp. reflexivity.
  - destruct (lookup id (inFlight s)) as [[|[r|e]]|]; now left.
  - left. unfold unmount. destruct (isMounted s); [|reflexivity].
    unfold wire; simpl. now destruct (oscPort s).
  - left. unfold shutdown, unmount; simpl.
    destruct (isMounted s); unfold wire; simpl; now destruct (oscPort s).
Qed.

Lemma run_batches (evs : list Event) :
  forall s, batches OSC_HOST OSC_PORT (wire s) ->
            batches OSC_HOST OSC_PORT (wire (run OSC_HOST OSC_PORT s evs)).
Proof.
  induction evs as [|ev evs IH]; intros s Hs; simpl; [exact Hs|].
  apply IH. destruct (step_wire s ev) as [E|(stats & k & E)]; rewrite E.
  - exact Hs.
  - now constructor.
Qed.

(** While nothing unmounts the component or stops the process, the
    program stays up. *)
Lemma running_step (s : AppState) (ev : Event) :
  keeps_running ev = true -> running s -> running (step OSC_HOST OSC_PORT s ev).
Proof.
  intros Hev (Hex & Hm & Hi & (p & Hp & Hc) & Hb).
  unfold step. rewrite Hex.
  destruct ev as [|id host collectedAt now|id now| |]; try discriminate.
  - rewrite Hi. unfold running; simpl. repeat split; try assumption.
    + now exists p.
    + now apply ids_below_start.
  - destruct (lookup id (inFlight s)) as [[|r]|];
      try (unfold running; repeat split; try assumption; now exists p).
    unfold monitor_collected.
    destruct (collectCPUStats host collectedAt) as [stats|e].
    + rewrite Hp.
      destruct (sendStats_prefix OSC_HOST OSC_PORT stats now p) as (r & k & E & _).
      rewrite E. unfold running; simpl. repeat split; try assumption.
      * eexists; split; [reflexivity | exact Hc].
      * now apply ids_below_set_phase.
    + unfold running; simpl. repeat split; try assumption.
      * now exists p.
      * now apply ids_below_remove.
  - destruct (lookup id (inFlight s)) as [[|[r|e]]|];
      try (unfold running; repeat split; try assumption; now exists p).
    + unfold running; simpl. repeat split; try assumption.
      * now exists p.
      * now apply ids_below_remove.
    + unfold running; simpl. repeat split; try assumption.
      * now exists p.
      * now apply ids_below_remove.
Qed.

Lemma running_run (evs : list Event) :
  forall s, forallb keeps_running evs = true -> running s ->
            running (run OSC_HOST OSC_PORT s evs).
Proof.
  induction evs as [|ev evs IH]; intros s Hevs Hs; simpl; [exact Hs|].
  simpl in Hevs. apply andb_prop in Hevs. destruct Hevs as [Hev Hevs].
  apply IH; [exact Hevs | now apply running_step].
Qed.

Lemma whole_batches_snoc (snapshots : list CPUStats) (stats : CPUStats) :
whole_batches OSC_HOST OSC_PORT (snapshots ++ [stats])
= (whole_batches OSC_HOST OSC_PORT snapshots
   ++ map (datagram OSC_HOST OSC_PORT) (batch stats))%list.
Proof.
unfold whole_batches. rewrite flat_map_app. simpl. now rewrite app_nil_r.
Qed.

Lemma never_faults_close (p : UDPPort) :
never_faults p -> never_faults (UDPPort_close p).
Proof. intros H l n m. apply H. Qed.

(** With a port whose [send] does not throw, every event leaves the log
  made of whole batches. *)
Lemma step_whole_batches (s : AppState) (ev : Event) :
sent_whole_batches OSC_HOST OSC_PORT s ->
sent_whole_batches OSC_HOST OSC_PORT (step OSC_HOST OSC_PORT s ev).
Proof.
intros (p & snaps & Hp & Hf & Hs).
assert (Hsame : sent_whole_batches OSC_HOST OSC_PORT s) by now exists p, snaps.
assert (Hclose : exists q snaps', close_if_open (oscPort s) = Some q /\ never_faults q
                                /\ sent q = whole_batches OSC_HOST OSC_PORT snaps').
{ rewrite Hp. exists (UDPPort_close p), snaps. simpl.
  split; [reflexivity|]. split; [now apply never_faults_close | exact Hs]. }
unfold step. destruct (exited s); [exact Hsame|].
destruct ev as [|id host collectedAt now|id now| |].
- destruct (intervalActive s); [|exact Hsame]. now exists p, snaps.
- destruct (lookup id (inFlight s)) as [[|r]|]; try exact Hsame.
  unfold monitor_collected.
  destruct (collectCPUStats host collectedAt) as [stats|e]; [|now exists p, snaps].
  rewrite Hp, (sendStats_ok OSC_HOST OSC_PORT stats now p Hf).
  exists (port_after OSC_HOST OSC_PORT p (batch stats)), (snaps ++ [stats])%list.
  split; [reflexivity|]. split; [now apply never_faults_after|].
  rewrite whole_batches_snoc. simpl. now rewrite Hs.
- destruct (lookup id (inFlight s)) as [[|[r|e]]|]; try exact Hsame; now exists p, snaps.
- unfold unmount. destruct (isMounted s); [|exact Hsame]. exact Hclose.
- unfold shutdown, unmount; simpl. destruct (isMounted s); simpl.
  + rewrite Hp. simpl. exists (UDPPort_close (UDPPort_close p)), snaps.
    split; [reflexivity|]. split; [now do 2 apply never_faults_close | exact Hs].
  + exact Hclose.
Qed.

Lemma run_whole_batches (evs : list Event) :
forall s, sent_whole_batches OSC_HOST OSC_PORT s ->
          sent_whole_batches OSC_HOST OSC_PORT (run OSC_HOST OSC_PORT s evs).
Proof.
induction evs as [|ev evs IH]; intros s Hs; simpl; [exact Hs|].
apply IH. now apply step_whole_batches.
Qed.

Lemma step_Tick (s : AppState) :
  exited s = false -> intervalActive s = true ->
  step OSC_HOST OSC_PORT s Tick = monitor_start s.
Proof. intros Hex Hi. unfold step. now rewrite Hex, Hi. Qed.

Lemma ticks_in_flight (k : nat) :
  forall s, exited s = false -> intervalActive s = true ->
    exited (run OSC_HOST OSC_PORT s (repeat Tick k)) = false
    /\ intervalActive (run OSC_HOST OSC_PORT s (repeat Tick k)) = true
    /\ List.length (inFlight (run OSC_HOST OSC_PORT s (repeat Tick k)))
       = List.length (inFlight s) + k.
Proof.
  induction k as [|k IH]; intros s Hex Hi.
  - simpl. repeat split; try assumption. lia.
  - change (repeat Tick (S k)) with (Tick :: repeat Tick k).
    change (run OSC_HOST OSC_PORT s (Tick :: repeat Tick k))
      with (run OSC_HOST OSC_PORT (step OSC_HOST OSC_PORT s Tick) (repeat Tick k)).
    rewrite (step_Tick s Hex Hi).
    destruct (IH (monitor_start s) Hex Hi) as (H1 & H2 & H3).
    repeat split; try assumption.
    rewrite H3. simpl. rewrite length_app. simpl. lia.
Qed.

End Scheduler.

(** C1, as stated, fails: right after the effect has run, the first call
    of [monitor] is still collecting; a tick then starts a second call,
    and two cycles are in flight. *)
Lemma monitor_overlap_counterexample :
  inFlight (App_mounted no_fault "t0") = [(0, Collecting)]
  /\ inFlight (step "localhost" (Num (9877 # 1)) (App_mounted no_fault "t0") Tick)
     = [(0, Collecting); (1, Collecting)]
  /\ ~ (List.length
          (inFlight (step "localhost" (Num (9877 # 1)) (App_mounted no_fault "t0") Tick))
        <= 1).
Proof.
  split; [reflexivity|]. split; [reflexivity|]. simpl. lia.
Qed.

(** C1, amended.  While the timer is armed, every tick starts a new call
    of [monitor] at once, whether or not earlier calls are still in
    flight: ticks are neither skipped nor queued, and [k] ticks that fire
    before anything settles leave [k + 1] cycles in flight.  What does not
    overlap is sending: [sendStats] awaits nothing, so each cycle's
    datagrams (all of its batch, or its first few when a send throws) go
    out in one piece, and the port's log is one such run after the other,
    whole batches only when no send throws. *)
Theorem monitor_every_tick_starts_a_cycle :
  forall OSC_HOST OSC_PORT,
    (forall s,
        exited s = false -> intervalActive s = true ->
        inFlight (step OSC_HOST OSC_PORT s Tick)
        = (inFlight s ++ [(started s, Collecting)])%list)
    /\ (forall fault now k,
           List.length
             (inFlight (run OSC_HOST OSC_PORT (App_mounted fault now) (repeat Tick k)))
           = S k)
    /\ (forall fault now evs,
           batches OSC_HOST OSC_PORT
             (wire (run OSC_HOST OSC_PORT (App_mounted fault now) evs)))
    /\ (forall now evs,
           exists snapshots,
             wire (run OSC_HOST OSC_PORT (App_mounted no_fault now) evs)
             = whole_batches OSC_HOST OSC_PORT snapshots).
Proof.
  intros OSC_HOST OSC_PORT. split; [|split; [|split]].
  - intros s Hex Hi. now rewrite (step_Tick OSC_HOST OSC_PORT s Hex Hi).
  - intros fault now k.
    destruct (ticks_in_flight OSC_HOST OSC_PORT k (App_mounted fault now) eq_refl eq_refl)
      as (_ & _ & H).
    rewrite H. reflexivity.
  - intros fault now evs. apply run_batches. simpl. constructor.
  - intros now evs.
    destruct (run_whole_batches OSC_HOST OSC_PORT evs (App_mounted no_fault now))
      as (p & snaps & Hp & _ & Hs).
    + exists (new_UDPPort no_fault), []. split; [reflexivity|].
      split; [intros l n m; reflexivity | reflexivity].
    + exists snaps. unfold wire. now rewrite Hp.
Qed.

(** C1 amended, on the program right after the effect has run. *)
Lemma monitor_every_tick_starts_a_cycle_witness :
  exited (App_mounted no_fault "t0") = false
  /\ intervalActive (App_mounted no_fault "t0") = true
  /\ inFlight (step "localhost" (Num (9877 # 1)) (App_mounted no_fault "t0") Tick)
     = [(0, Collecting); (1, Collecting)].
Proof.
  split; [reflexivity|]. split; [reflexivity|].
  apply (proj1 (monitor_every_tick_starts_a_cycle "localhost" (Num (9877 # 1)))
           (App_mounted no_fault "t0") eq_refl eq_refl).
Defined.

(** C5.  When the collection of a cycle fails while the program is up,
    the error becomes the status the UI shows ([lastSend], with the
    collector's message), the port is not touched and the snapshot is
    kept, the cycle is over (alone in flight, it leaves none), and the
    timer stays armed: the next tick starts a collection again, and when
    that one succeeds its snapshot is stored and sent. *)
Theorem monitor_collection_failure :
  forall OSC_HOST OSC_PORT fault t0 evs id host collectedAt now e,
    forallb keeps_running evs = true ->
    lookup id (inFlight (run OSC_HOST OSC_PORT (App_mounted fault t0) evs)) = Some Collecting ->
    collectCPUStats host collectedAt = Threw e ->
    let s := run OSC_HOST OSC_PORT (App_mounted fault t0) evs in
    let s' := step OSC_HOST OSC_PORT s (CollectSettled id host collectedAt now) in
    lastSend s' = failure e now
    /\ (exists detail,
           error (lastSend s') = Some ("Failed to collect CPU stats: " ++ detail))
    /\ isLoading s' = false
    /\ oscPort s' = oscPort s
    /\ cpuStats s' = cpuStats s
    /\ inFlight s' = remove id (inFlight s)
    /\ lookup id (inFlight s') = None
    /\ (inFlight s = [(id, Collecting)] -> inFlight s' = [])
    /\ running s'
    /\ inFlight (step OSC_HOST OSC_PORT s' Tick)
       = (inFlight s' ++ [(started s', Collecting)])%list
    /\ (forall host' collectedAt' now' stats',
           collectCPUStats host' collectedAt' = Returned stats' ->
           let s'' := step OSC_HOST OSC_PORT (step OSC_HOST OSC_PORT s' Tick)
                        (CollectSettled (started s') host' collectedAt' now') in
           cpuStats s'' = Some stats'
           /\ oscPort s'' = snd (sendStats OSC_HOST OSC_PORT stats' now' (oscPort s'))
           /\ lookup (started s') (inFlight s'')
              = Some (Disseminating (fst (sendStats OSC_HOST OSC_PORT stats' now' (oscPort s'))))).
Proof.
  intros OSC_HOST OSC_PORT fault t0 evs id host collectedAt now e Hevs Hid He s s'.
  assert (Hs : running s).
  { apply running_run; [exact Hevs | apply running_mounted]. }
  destruct Hs as (Hex & Hm & Hi & (p & Hp & Hc) & Hb).
  assert (Es' : s' = monitor_catch id e now s).
  { unfold s', step. fold s in Hid. rewrite Hex, Hid.
    unfold monitor_collected. now rewrite He. }
  assert (Hs' : running s').
  { rewrite Es'. unfold running; simpl. repeat split; try assumption.
    - now exists p.
    - now apply ids_below_remove. }
  rewrite Es' in *. clear Es'. simpl.
  rewrite Hm.
  split; [reflexivity|].
  split.
  { apply collectCPUStats_Threw in He. destruct He as [detail ->].
    exists detail. reflexivity. }
  split; [reflexivity|]. split; [reflexivity|]. split; [reflexivity|].
  split; [reflexivity|].
  split; [apply lookup_remove|].
  split.
  { intros E. rewrite E. simpl. now rewrite Nat.eqb_refl. }
  split; [exact Hs'|].
  destruct Hs' as (Hex' & Hm' & Hi' & _ & Hb').
  split.
  { now rewrite (step_Tick OSC_HOST OSC_PORT _ Hex' Hi'). }
  intros host' collectedAt' now' stats' Hok.
  rewrite (step_Tick OSC_HOST OSC_PORT _ Hex' Hi').
  unfold step. simpl exited. rewrite Hex.
  simpl inFlight. simpl started.
  simpl in Hb'.
  rewrite (lookup_app_fresh _ Collecting _ Hb').
  unfold monitor_collected. rewrite Hok. simpl oscPort.
  destruct (sendStats OSC_HOST OSC_PORT stats' now' (oscPort s)) as [r w] eqn:E.
  simpl. rewrite Hm.
  split; [reflexivity|]. split; [reflexivity|].
  apply lookup_set_phase. rewrite (lookup_app_fresh _ Collecting _ Hb'). discriminate.
Qed.

(** C5, on the first cycle of a host whose load query is rejected. *)
Lemma monitor_collection_failure_witness :
  forallb keeps_running [] = true
  /\ lookup 0 (inFlight (run "localhost" (Num (9877 # 1)) (App_mounted no_fault "t0") []))
     = Some Collecting
  /\ collectCPUStats host_down "t1"
     = Threw (ErrorObj "Failed to collect CPU stats: spawn sysctl ENOENT")
  /\ lastSend (step "localhost" (Num (9877 # 1))
                 (run "localhost" (Num (9877 # 1)) (App_mounted no_fault "t0") [])
                 (CollectSettled 0 host_down "t1" "t2"))
     = failure (ErrorObj "Failed to collect CPU stats: spawn sysctl ENOENT") "t2"
  /\ inFlight (step "localhost" (Num (9877 # 1))
                 (run "localhost" (Num (9877 # 1)) (App_mounted no_fault "t0") [])
                 (CollectSettled 0 host_down "t1" "t2"))
     = [].
Proof.
  assert (H1 : forallb keeps_running [] = true) by reflexivity.
  assert (H2 : lookup 0 (inFlight (run "localhost" (Num (9877 # 1)) (App_mounted no_fault "t0") []))
     = Some Collecting) by reflexivity.
  assert (H3 : collectCPUStats host_down "t1"
     = Threw (ErrorObj "Failed to collect CPU stats: spawn sysctl ENOENT")) by reflexivity.
  pose proof (monitor_collection_failure "localhost" (Num (9877 # 1)) no_fault "t0" []
              0 host_down "t1" "t2"
              (ErrorObj "Failed to collect CPU stats: spawn sysctl ENOENT")
              H1 H2 H3) as H.
  cbv zeta in H.
  destruct H as (Ha & _ & _ & _ & _ & _ & _ & Hb & _).
  split; [exact H1|]. split; [exact H2|]. split; [exact H3|].
  split; [exact Ha | ].
  apply Hb. reflexivity.
Defined.

(** C10.  When SIGINT or SIGTERM arrives while the program is up, the
    port, open and not closed so far, gets [close()] twice: [shutdown]
    calls it, and [unmount()] runs the effect's cleanup, which on its own
    closes the port once, and calls it again; then the process exits. *)
Theorem shutdown_closes_port_twice :
  forall OSC_HOST OSC_PORT fault t0 evs,
    forallb keeps_running evs = true ->
    exists p,
      oscPort (run OSC_HOST OSC_PORT (App_mounted fault t0) evs) = Some p
      /\ closeCalls p = 0
      /\ oscPort (step OSC_HOST OSC_PORT (run OSC_HOST OSC_PORT (App_mounted fault t0) evs) Unmount)
         = Some (UDPPort_close p)
      /\ oscPort (step OSC_HOST OSC_PORT (run OSC_HOST OSC_PORT (App_mounted fault t0) evs) Signal)
         = Some (UDPPort_close (UDPPort_close p))
      /\ closes (step OSC_HOST OSC_PORT (run OSC_HOST OSC_PORT (App_mounted fault t0) evs) Signal)
         = Some 2
      /\ exited (step OSC_HOST OSC_PORT (run OSC_HOST OSC_PORT (App_mounted fault t0) evs) Signal)
         = true.
Proof.
  intros OSC_HOST OSC_PORT fault t0 evs Hevs.
  destruct (running_run OSC_HOST OSC_PORT evs (App_mounted fault t0) Hevs
              (running_mounted fault t0))
    as (Hex & Hm & Hi & (p & Hp & Hc) & Hb).
  exists p. split; [exact Hp|]. split; [exact Hc|].
  unfold step, closes. rewrite Hex. unfold shutdown, unmount. simpl.
  rewrite Hm. simpl. rewrite Hp. simpl. rewrite Hc.
  repeat split.
Qed.

(** C10, when the signal arrives during the second cycle. *)
Lemma shutdown_closes_port_twice_witness :
  forallb keeps_running [CollectSettled 0 host_m1 "t1" "t2"; SendSettled 0 "t3"; Tick] = true
  /\ closes (step "localhost" (Num (9877 # 1))
               (run "localhost" (Num (9877 # 1)) (App_mounted no_fault "t0")
                  [CollectSettled 0 host_m1 "t1" "t2"; SendSettled 0 "t3"; Tick])
               Signal)
     = Some 2.
Proof.
  assert (H1 : forallb keeps_running
                 [CollectSettled 0 host_m1 "t1" "t2"; SendSettled 0 "t3"; Tick] = true)
    by reflexivity.
  split; [exact H1|].
  destruct (shutdown_closes_port_twice "localhost" (Num (9877 # 1)) no_fault "t0"
              [CollectSettled 0 host_m1 "t1" "t2"; SendSettled 0 "t3"; Tick] H1)
    as (p & _ & _ & _ & _ & H & _).
  exact H.
Defined.

(* ===================================================================== *)
(** * Further properties *)
(* ===================================================================== *)

(** ** Decimal numerals *)

Lemma digits_prefix_numeral (d : Decimal.uint) :
  forall acc rest,
    no_leading_digit rest ->
    Config.digits_prefix acc (NilEmpty.string_of_uint d ++ rest)
    = match d with
      | Decimal.Nil => acc
      | _ => Some (digits_value d (match acc with Some a => a | None => 0%Z end))
      end.
Proof.
  induction d; intros acc rest Hrest;
    try (cbn [NilEmpty.string_of_uint String.append Config.digits_prefix];
         change (Config.digit_of _) with (Some 0%Z) || change (Config.digit_of _) with (Some 1%Z)
         || change (Config.digit_of _) with (Some 2%Z) || change (Config.digit_of _) with (Some 3%Z)
         || change (Config.digit_of _) with (Some 4%Z) || change (Config.digit_of _) with (Some 5%Z)
         || change (Config.digit_of _) with (Some 6%Z) || change (Config.digit_of _) with (Some 7%Z)
         || change (Config.digit_of _) with (Some 8%Z) || change (Config.digit_of _) with (Some 9%Z);
         cbv iota beta; rewrite IHd by assumption;
         destruct d; reflexivity).
  cbn [NilEmpty.string_of_uint String.append].
  destruct rest as [|c rest]; [reflexivity|].
  simpl in Hrest. cbn [Config.digits_prefix]. now rewrite Hrest.
Qed.

Lemma digits_value_of_uint_acc (d : Decimal.uint) :
  forall n, digits_value d (Z.of_nat n) = Z.of_nat (Nat.of_uint_acc d n).
Proof.
  induction d; intros n; cbn [digits_value Nat.of_uint_acc]; try reflexivity;
    rewrite <- IHd; f_equal; rewrite Nat.tail_mul_spec; lia.
Qed.

Lemma to_uint_nonnil (n : nat) : Nat.to_uint n <> Decimal.Nil.
Proof.
  rewrite <- (DecimalNat.Unsigned.of_to n) at 1.
  rewrite DecimalNat.Unsigned.to_of. apply DecimalFacts.unorm_nonnil.
Qed.

(** Reading the digits of [n], followed by anything that is not a digit,
    gives [n]. *)
Lemma digits_prefix_string_of_nat (n : nat) (rest : string) :
  no_leading_digit rest ->
  Config.digits_prefix None (string_of_nat n ++ rest) = Some (Z.of_nat n).
Proof.
  intros Hrest. unfold string_of_nat.
  rewrite (digits_prefix_numeral _ None rest Hrest).
  pose proof (to_uint_nonnil n) as Hn.
  destruct (Nat.to_uint n) eqn:E; try congruence;
    rewrite <- E; change 0%Z with (Z.of_nat 0);
    rewrite digits_value_of_uint_acc;
    change (Nat.of_uint_acc (Nat.to_uint n) 0) with (Nat.of_uint (Nat.to_uint n));
    now rewrite DecimalNat.Unsigned.of_to.
Qed.

Lemma string_of_nat_head (n : nat) :
  exists c r, string_of_nat n = String c r
              /\ Config.is_space c = false
              /\ c <> "-"%char /\ c <> "+"%char.
Proof.
  unfold string_of_nat. pose proof (to_uint_nonnil n) as Hn.
  destruct (Nat.to_uint n); try congruence;
    eexists; eexists; (split; [reflexivity|]);
    (split; [reflexivity|]); split; discriminate.
Qed.






(** ** Addresses *)

Lemma no_leading_digit_load : no_leading_digit "/load".
Proof. reflexivity. Qed.

Lemma core_address_injective (i j : nat) :
  core_address i = core_address j -> i = j.
Proof.
  unfold core_address. cbn [String.append]. intros H.
  injection H as H.
  pose proof (digits_prefix_string_of_nat i "/load" no_leading_digit_load) as Hi.
  pose proof (digits_prefix_string_of_nat j "/load" no_leading_digit_load) as Hj.
  rewrite H in Hi. rewrite Hi in Hj. injection Hj as Hj. lia.
Qed.

Lemma NoDup_map_injective {A B : Type} (f : A -> B) (l : list A) :
  (forall x y, f x = f y -> x = y) -> NoDup l -> NoDup (map f l).
Proof.
  intros Hf. induction 1 as [|x l Hx Hl IH]; simpl; constructor; [|exact IH].
  intros Hin. apply in_map_iff in Hin. destruct Hin as (y & Hy & Hin).
  apply Hf in Hy. now subst y.
Qed.

Lemma core_address_not_fixed (i : nat) :
  ~ In (core_address i) head_addresses /\ core_address i <> "/cpu/timestamp".
Proof.
  unfold core_address, head_addresses. cbn [String.append In].
  split; [intros H; repeat (destruct H as [H|H]; [discriminate H|]); exact H | discriminate].
Qed.

(** The addresses of [n] cores are pairwise distinct. *)
Lemma fixed_order_NoDup (n : nat) : NoDup (fixed_order n).
Proof.
  unfold fixed_order. apply NoDup_app.
  - unfold head_addresses. repeat constructor; cbn [In]; intros H;
      repeat (destruct H as [H|H]; [discriminate H|]); exact H.
  - apply NoDup_app.
    + apply NoDup_map_injective; [apply core_address_injective | apply seq_NoDup].
    + repeat constructor. intros [].
    + intros a Ha [H|[]]. apply in_map_iff in Ha. destruct Ha as (i & Hi & _).
      subst a. symmetry in H. now apply (proj2 (core_address_not_fixed i)).
  - intros a Ha Hin. apply in_app_or in Hin. destruct Hin as [Hin|[Hin|[]]].
    + apply in_map_iff in Hin. destruct Hin as (i & Hi & _). subst a.
      now apply (proj1 (core_address_not_fixed i)).
    + subst a. unfold head_addresses in Ha. cbn [In] in Ha.
      repeat (destruct Ha as [Ha|Ha]; [discriminate Ha|]). exact Ha.
Qed.

(** X2.  In the batch of a snapshot the collector built, no two messages
    share an address, and the core number in an address identifies the
    core: a receiver that keys values by address loses nothing. *)
Theorem batch_addresses_distinct :
  forall host now stats,
    collectCPUStats host now = Returned stats ->
    NoDup (map address (batch stats))
    /\ (forall i j, core_address i = core_address j -> i = j).
Proof.
  intros host now stats H. split; [|apply core_address_injective].
  rewrite batch_addresses. rewrite (collectCPUStats_perCore host now stats H).
  apply fixed_order_NoDup.
Qed.

(** X2, on the README's 10-core host. *)
Lemma batch_addresses_distinct_witness :
  collectCPUStats host_m1 "2025-11-12T01:23:45.789Z" = Returned snapshot_m1
  /\ NoDup (map address (batch snapshot_m1)).
Proof.
  assert (H : collectCPUStats host_m1 "2025-11-12T01:23:45.789Z" = Returned snapshot_m1)
    by reflexivity.
  split; [exact H|].
  exact (proj1 (batch_addresses_distinct host_m1 "2025-11-12T01:23:45.789Z" snapshot_m1 H)).
Defined.

(** ** More on rounding *)

Lemma Qfloor_half (n : Z) : Qfloor (inject_Z n + (1 # 2))%Q = n.
Proof.
  pose proof (Qfloor_le (inject_Z n + (1 # 2))) as Hle.
  pose proof (Qlt_floor (inject_Z n + (1 # 2))) as Hlt.
  set (f := Qfloor (inject_Z n + (1 # 2))) in *.
  assert (H1 : (inject_Z f < inject_Z (n + 1))%Q).
  { rewrite inject_Z_plus. change (inject_Z 1) with (1 # 1)%Q. lra. }
  assert (H2 : (inject_Z n < inject_Z (f + 1))%Q) by lra.
  rewrite <- Zlt_Qlt in H1. rewrite <- Zlt_Qlt in H2. lia.
Qed.

Lemma hundredths_of_hundredths (n : Z) :
  hundredths (n # 100) = Z.abs n.
Proof.
  unfold hundredths.
  assert (E : (inject_Z 100 * Qabs (n # 100) + (1 # 2) == inject_Z (Z.abs n) + (1 # 2))%Q).
  { change (Qabs (n # 100)) with (Z.abs n # 100)%Q. rewrite Qmake_100.
    change (inject_Z 100) with (100 # 1)%Q. lra. }
  rewrite E. apply Qfloor_half.
Qed.

Lemma hundredths_nonneg (q : Q) : (0 <= hundredths q)%Z.
Proof.
  unfold hundredths.
  change 0%Z with (Qfloor (0 # 1)). apply Qfloor_resp_le.
  pose proof (Qabs_nonneg q) as H. change (inject_Z 100) with (100 # 1)%Q. lra.
Qed.

Lemma Qle_bool_sign (n : Z) : Qle_bool 0 (n # 100) = (0 <=? n)%Z.
Proof. unfold Qle_bool; simpl. now rewrite Z.mul_1_r. Qed.

(** X3.  Rounding is idempotent: a value that went through
    [parseFloat(x.toFixed(2))] comes back unchanged from a second pass, so
    the [toFixed(2)] the UI applies to the stored fields shows exactly the
    stored value. *)
Theorem parseFloat_toFixed2_idempotent :
  forall x, parseFloat_toFixed2 (parseFloat_toFixed2 x) = parseFloat_toFixed2 x.
Proof.
  intros [| |q]; try reflexivity.
  destruct (Qle_bool toFixed_limit (Qabs q)) eqn:Hbig.
  - assert (E : parseFloat_toFixed2 (Num q) = Num q)
      by (unfold parseFloat_toFixed2; now rewrite Hbig).
    rewrite E. exact E.
  - pose proof (hundredths_nonneg q) as Hn.
    set (n := hundredths q) in *.
    assert (Hgen : forall m : Z, Z.abs m = n ->
                   parseFloat_toFixed2 (Num (m # 100)) = Num (m # 100)).
    { intros m Hm. unfold parseFloat_toFixed2.
      destruct (Qle_bool toFixed_limit (Qabs (m # 100))); [reflexivity|].
      rewrite hundredths_of_hundredths, Qle_bool_sign.
      destruct (0 <=? m)%Z eqn:Hs; f_equal; f_equal.
      - apply Z.leb_le in Hs. lia.
      - apply Z.leb_gt in Hs. lia. }
    destruct (Qle_bool 0 q) eqn:Hs.
    + assert (E : parseFloat_toFixed2 (Num q) = Num (n # 100))
        by (unfold parseFloat_toFixed2; now rewrite Hbig, Hs).
      rewrite E. apply Hgen. lia.
    + assert (E : parseFloat_toFixed2 (Num q) = Num (- n # 100))
        by (unfold parseFloat_toFixed2; now rewrite Hbig, Hs).
      rewrite E. apply Hgen. lia.
Qed.

(** X4.  A percentage between 0 and 100 stays between 0 and 100 when it
    is rounded: the result is [n / 100] for an integer [n] from 0 to
    10000. *)
Theorem parseFloat_toFixed2_range :
  forall q,
    (0 <= q)%Q -> (q <= 100 # 1)%Q ->
    exists n : Z,
      parseFloat_toFixed2 (Num q) = Num (n # 100) /\ (0 <= n <= 10000)%Z.
Proof.
  intros q H0 H100. unfold parseFloat_toFixed2.
  assert (Habs : (Qabs q == q)%Q) by now apply Qabs_pos.
  destruct (Qle_bool toFixed_limit (Qabs q)) eqn:Hbig.
  - apply Qle_bool_iff in Hbig.
    exfalso. assert (Hl : (100 # 1 < toFixed_limit)%Q) by reflexivity. lra.
  - destruct (Qle_bool 0 q) eqn:Hs.
    + exists (hundredths q). split; [reflexivity|].
      split; [apply hundredths_nonneg|].
      unfold hundredths.
      change 10000%Z with (Qfloor ((10000 # 1) + (1 # 2))). apply Qfloor_resp_le.
      change (inject_Z 100) with (100 # 1)%Q. lra.
    + exfalso. apply Qle_bool_iff in H0. congruence.
Qed.

(** X4, on 99.996, which rounds up to 100.00. *)
Lemma parseFloat_toFixed2_range_witness :
  (0 <= 99996 # 1000)%Q /\ (99996 # 1000 <= 100 # 1)%Q
  /\ exists n : Z,
       parseFloat_toFixed2 (Num (99996 # 1000)) = Num (n # 100) /\ (0 <= n <= 10000)%Z.
Proof.
  assert (H0 : (0 <= 99996 # 1000)%Q) by (unfold Qle; simpl; lia).
  assert (H1 : (99996 # 1000 <= 100 # 1)%Q) by (unfold Qle; simpl; lia).
  split; [exact H0|]. split; [exact H1|].
  exact (parseFloat_toFixed2_range (99996 # 1000) H0 H1).
Defined.

(** ** Where a batch stops *)

Section SendsUntil.

Variable OSC_HOST : string.
Variable OSC_PORT : number.

Lemma sends_until_ret {A : Type} (a : A) : sends_until OSC_HOST OSC_PORT (ret a) [].
Proof.
  intros p. exists (Returned a), 0. simpl. unfold ret.
  rewrite port_after_nil. split; reflexivity.
Qed.

Lemma sends_until_require_port : sends_until OSC_HOST OSC_PORT require_port [].
Proof.
  intros p. exists (Returned tt), 0. simpl.
  rewrite port_after_nil. split; reflexivity.
Qed.

Lemma sends_until_oscPort_send (m : OscMessage) :
  sends_until OSC_HOST OSC_PORT (oscPort_send OSC_HOST OSC_PORT m) [m].
Proof.
  intros p. unfold oscPort_send.
  destruct (send_fault p (sent p) (closeCalls p) m) as [e|] eqn:E.
  - exists (Threw e), 0. cbn [firstn]. rewrite port_after_nil.
    split; [reflexivity|]. exists m. split; [reflexivity | exact E].
  - exists (Returned tt), 1. split; reflexivity.
Qed.

Lemma sends_until_bindM {A B : Type} (c : M A) (k : A -> M B) (l1 l2 : list OscMessage) :
  sends_until OSC_HOST OSC_PORT c l1 ->
  (forall a, sends_until OSC_HOST OSC_PORT (k a) l2) ->
  sends_until OSC_HOST OSC_PORT (bindM c k) (l1 ++ l2).
Proof.
  intros Hc Hk p. unfold bindM.
  destruct (Hc p) as (r1 & k1 & E1 & F1). rewrite E1.
  destruct r1 as [a|e].
  - subst k1. rewrite firstn_all.
    destruct (Hk a (port_after OSC_HOST OSC_PORT p l1)) as (r2 & k2 & E2 & F2).
    exists r2, (List.length l1 + k2). rewrite E2, port_after_app.
    rewrite firstn_app_2. split; [reflexivity|].
    destruct r2 as [b|e].
    + rewrite length_app. lia.
    + destruct F2 as (m & Hm & Hf). exists m. split.
      * rewrite nth_error_app2 by lia.
        now replace (List.length l1 + k2 - List.length l1) with k2 by lia.
      * rewrite port_after_app in Hf. exact Hf.
  - destruct F1 as (m & Hm & Hf).
    assert (Hk1 : k1 < List.length l1).
    { apply nth_error_Some. congruence. }
    exists (Threw e), k1.
    assert (Hfirst : firstn k1 (l1 ++ l2) = firstn k1 l1).
    { rewrite firstn_app. replace (k1 - List.length l1) with 0 by lia.
      now rewrite firstn_O, app_nil_r. }
    rewrite Hfirst. split; [reflexivity|].
    exists m. split; [|exact Hf].
    now rewrite nth_error_app1.
Qed.

Lemma sends_until_forEach_send_core (cs : list CoreStats) :
  sends_until OSC_HOST OSC_PORT (forEach (send_core OSC_HOST OSC_PORT) cs)
    (map core_message cs).
Proof.
  induction cs as [|c cs IH]; simpl.
  - apply sends_until_ret.
  - apply (sends_until_bindM _ _ [core_message c]);
      [apply sends_until_oscPort_send | intros _; exact IH].
Qed.

Lemma sends_until_sendStats_body (stats : CPUStats) (now : string) :
  sends_until OSC_HOST OSC_PORT (sendStats_body OSC_HOST OSC_PORT stats now) (batch stats).
Proof.
  unfold sendStats_body.
  apply (sends_until_bindM _ _ [] (batch stats)); [apply sends_until_require_port | intros _].
  unfold batch. cbn [app].
  do 6 (apply (sends_until_bindM _ _ [_]); [apply sends_until_oscPort_send | intros _]).
  apply sends_until_bindM; [apply sends_until_forEach_send_core | intros _].
  replace [{| address := "/cpu/timestamp"; args := [ArgS (timestamp stats)] |}]
    with ([{| address := "/cpu/timestamp"; args := [ArgS (timestamp stats)] |}] ++ [])%list
    by reflexivity.
  apply sends_until_bindM; [apply sends_until_oscPort_send | intros _; apply sends_until_ret].
Qed.

End SendsUntil.

(** X5.  [sendStats] reports success exactly when the whole batch went
    out.  When it reports failure on an initialised port, the messages
    before the one whose [send] threw went out, that message and all later
    ones did not (nothing is retried or skipped over), and the error
    detail is the message of what that [send] threw. *)
Theorem sendStats_stops_at_first_fault :
  forall OSC_HOST OSC_PORT stats now p,
    exists r k,
      sendStats OSC_HOST OSC_PORT stats now (Some p)
      = (Returned r, Some (port_after OSC_HOST OSC_PORT p (firstn k (batch stats))))
      /\ (success r = true <-> k = List.length (batch stats))
      /\ (success r = false ->
          exists m e,
            nth_error (batch stats) k = Some m
            /\ send_fault p (sent (port_after OSC_HOST OSC_PORT p (firstn k (batch stats))))
                 (closeCalls p) m = Some e
            /\ error r = Some (errorMessage e)).
Proof.
  intros OSC_HOST OSC_PORT stats now p.
  unfold sendStats, try_catchM.
  destruct (sends_until_sendStats_body OSC_HOST OSC_PORT stats now p) as (c & k & E & F).
  rewrite E. destruct c as [r|e].
  - exists r, k. split; [reflexivity|].
    assert (Hr : success r = true).
    { unfold sendStats_body, bindM in E.
      repeat match type of E with
             | (match ?c with _ => _ end) = _ =>
                 destruct c as [[[]|?] ?]; try discriminate
             end.
      unfold ret in E. now inversion E. }
    split; [split; [intros _; exact F | intros _; exact Hr]|].
    intros Hf. congruence.
  - destruct F as (m & Hm & Hf).
    exists {| success := false; status := "ERROR"; error := Some (errorMessage e);
              sr_timestamp := now |}, k.
    split; [reflexivity|]. cbn [success error].
    split.
    + split; [discriminate|]. intros Hk.
      assert (Hlt : k < List.length (batch stats)) by (apply nth_error_Some; congruence).
      lia.
    + intros _. now exists m, e.
Qed.

(** X5, on a port whose third [send] onwards throws. *)
Lemma sendStats_stops_at_first_fault_witness :
  exists r k,
    sendStats "localhost" (Num (9877 # 1)) snapshot_m1 "t" (Some (new_UDPPort faulty_after_3))
    = (Returned r,
       Some (port_after "localhost" (Num (9877 # 1)) (new_UDPPort faulty_after_3)
               (firstn k (batch snapshot_m1))))
    /\ (success r = true <-> k = List.length (batch snapshot_m1))
    /\ (success r = false ->
        exists m e,
          nth_error (batch snapshot_m1) k = Some m
          /\ send_fault (new_UDPPort faulty_after_3)
               (sent (port_after "localhost" (Num (9877 # 1)) (new_UDPPort faulty_after_3)
                        (firstn k (batch snapshot_m1))))
               (closeCalls (new_UDPPort faulty_after_3)) m = Some e
          /\ error r = Some (errorMessage e)).
Proof.
  exact (sendStats_stops_at_first_fault "localhost" (Num (9877 # 1)) snapshot_m1 "t"
           (new_UDPPort faulty_after_3)).
Defined.

(** ** What the UI shows *)

(** [sendStats] returns one of the two records it builds. *)
Lemma sendStats_result (OSC_HOST : string) (OSC_PORT : number) (stats : CPUStats)
    (now : string) (w : option UDPPort) :
  exists r w',
    sendStats OSC_HOST OSC_PORT stats now w = (Returned r, w')
    /\ (r = ok_result now \/ exists e, r = failure e now).
Proof.
  unfold sendStats, try_catchM.
  destruct (sendStats_body OSC_HOST OSC_PORT stats now w) as [[r|e] w'] eqn:E.
  - exists r, w'. split; [reflexivity|]. left.
    unfold sendStats_body, bindM in E.
    repeat match type of E with
           | (match ?c with _ => _ end) = _ =>
               destruct c as [[[]|?] ?]; try discriminate
           end.
    unfold ret in E. now inversion E.
  - eexists; exists w'. split; [reflexivity|]. right. now exists e.
Qed.

Section Display.

Variable OSC_HOST : string.
Variable OSC_PORT : number.



End Display.



Section Results.

Variable OSC_HOST : string.
Variable OSC_PORT : number.

Lemma pending_remove (id : nat) (l : list (nat * Phase)) :
  Forall pending_well_formed l -> Forall pending_well_formed (remove id l).
Proof.
  unfold remove. rewrite !Forall_forall. intros H e He.
  apply filter_In in He. now apply H.
Qed.

Lemma pending_set_phase (id : nat) (r : SendResult) (l : list (nat * Phase)) :
  well_formed_result r ->
  Forall pending_well_formed l ->
  Forall pending_well_formed (set_phase id (Disseminating (Returned r)) l).
Proof.
  intros Hr H. unfold set_phase. apply Forall_map.
  eapply Forall_impl; [|exact H]. intros [i q] Hq.
  destruct (Nat.eqb (fst (i, q)) id); [|exact Hq].
  unfold pending_well_formed; simpl. now exists r.
Qed.

Lemma pending_lookup (id : nat) (l : list (nat * Phase)) (c : completion SendResult) :
  Forall pending_well_formed l ->
  lookup id l = Some (Disseminating c) ->
  exists r, c = Returned r /\ well_formed_result r.
Proof.
  induction 1 as [|[i q] l Hq _ IH]; simpl; [discriminate|].
  destruct (Nat.eqb i id); [|exact IH].
  intros E. inversion E; subst q. exact Hq.
Qed.

(** Every result on record or waiting to be recorded is one the program
    built. *)
Lemma step_results (s : AppState) (ev : Event) :
  well_formed_result (lastSend s) /\ Forall pending_well_formed (inFlight s) ->
  well_formed_result (lastSend (step OSC_HOST OSC_PORT s ev))
  /\ Forall pending_well_formed (inFlight (step OSC_HOST OSC_PORT s ev)).
Proof.
  intros [Hl Hp]. unfold step. destruct (exited s); [now split|].
  destruct ev as [|id host collectedAt now|id now| |].
  - destruct (intervalActive s); [|now split]. simpl. split; [exact Hl|].
    apply Forall_app. split; [exact Hp|]. repeat constructor.
  - destruct (lookup id (inFlight s)) as [[|r]|]; try now split.
    unfold monitor_collected.
    destruct (collectCPUStats host collectedAt) as [stats|e].
    + destruct (sendStats_result OSC_HOST OSC_PORT stats now (oscPort s))
        as (r & w' & E & Hr).
      rewrite E. simpl. split; [exact Hl|].
      apply pending_set_phase; [|exact Hp].
      destruct Hr as [->|[e ->]]; right; [left; now exists now | right; now exists e, now].
    + simpl. split; [|now apply pending_remove].
      destruct (isMounted s); [|exact Hl]. right. right. now exists e, now.
  - destruct (lookup id (inFlight s)) as [[|c]|] eqn:E; try now split.
    destruct (pending_lookup id _ c Hp E) as (r & -> & Hr).
    simpl. split; [|now apply pending_remove].
    destruct (isMounted s); assumption.
  - unfold unmount. destruct (isMounted s); now split.
  - unfold shutdown, unmount; simpl. destruct (isMounted s); now split.
Qed.

Lemma run_results (evs : list Event) :
  forall s,
    well_formed_result (lastSend s) /\ Forall pending_well_formed (inFlight s) ->
    well_formed_result (lastSend (run OSC_HOST OSC_PORT s evs)).
Proof.
  induction evs as [|ev evs IH]; intros s H; [exact (proj1 H)|].
  change (run OSC_HOST OSC_PORT s (ev :: evs))
    with (run OSC_HOST OSC_PORT (step OSC_HOST OSC_PORT s ev) evs).
  apply IH. now apply step_results.
Qed.

End Results.

(** X7.  Whatever happens after the effect has run, the status line shows
    'Initializing...', 'OK' or 'ERROR': it is green exactly when the last
    recorded send succeeded, red exactly when an error detail is on
    record, and yellow only while nothing has been recorded.  The error
    line is missing under a red status exactly when the detail is the
    empty string. *)
Theorem send_panel_colours :
  forall OSC_HOST OSC_PORT fault t0 evs,
    well_formed_result (lastSend (run OSC_HOST OSC_PORT (App_mounted fault t0) evs))
    /\ (statusColor (send_panel (run OSC_HOST OSC_PORT (App_mounted fault t0) evs)) = "green"
        <-> success (lastSend (run OSC_HOST OSC_PORT (App_mounted fault t0) evs)) = true)
    /\ (statusColor (send_panel (run OSC_HOST OSC_PORT (App_mounted fault t0) evs)) = "red"
        <-> error (lastSend (run OSC_HOST OSC_PORT (App_mounted fault t0) evs)) <> None)
    /\ (statusColor (send_panel (run OSC_HOST OSC_PORT (App_mounted fault t0) evs)) = "yellow"
        <-> statusText (send_panel (run OSC_HOST OSC_PORT (App_mounted fault t0) evs))
            = "Initializing...")
    /\ (statusColor (send_panel (run OSC_HOST OSC_PORT (App_mounted fault t0) evs)) = "red" ->
        (errorLine (send_panel (run OSC_HOST OSC_PORT (App_mounted fault t0) evs)) = None
         <-> error (lastSend (run OSC_HOST OSC_PORT (App_mounted fault t0) evs)) = Some "")).
Proof.
  intros OSC_HOST OSC_PORT fault t0 evs.
  assert (H : well_formed_result
                (lastSend (run OSC_HOST OSC_PORT (App_mounted fault t0) evs))).
  { apply run_results. split.
    - left. now exists t0.
    - repeat constructor. }
  split; [exact H|].
  unfold send_panel; cbn [statusColor statusText errorLine].
  destruct H as [[now E]|[[now E]|(e & now & E)]]; rewrite E;
    unfold ok_result, failure; cbn [success status error];
    (split; [split; [intros H; try discriminate H; reflexivity
                    | intros H; try discriminate H; reflexivity]|]);
    (split; [split; [intros H; try discriminate H; try discriminate
                    | intros H; try reflexivity; exfalso; now apply H]|]);
    (split; [split; [intros H; try discriminate H; reflexivity
                    | intros H; try discriminate H; reflexivity]|]);
    intros H; try discriminate H.
  destruct (errorMessage e) as [|c m]; split; intros H'; try reflexivity; discriminate.
Qed.

(** X7, after a successful first cycle. *)
Lemma send_panel_colours_witness :
  statusColor (send_panel (run "localhost" (Num (9877 # 1)) (App_mounted no_fault "t0")
                             [CollectSettled 0 host_m1 "t1" "t2"; SendSettled 0 "t3"]))
  = "green"
  /\ success (lastSend (run "localhost" (Num (9877 # 1)) (App_mounted no_fault "t0")
                          [CollectSettled 0 host_m1 "t1" "t2"; SendSettled 0 "t3"]))
     = true.
Proof.
  assert (H : statusColor
                (send_panel (run "localhost" (Num (9877 # 1)) (App_mounted no_fault "t0")
                               [CollectSettled 0 host_m1 "t1" "t2"; SendSettled 0 "t3"]))
              = "green") by (vm_compute; reflexivity).
  split; [exact H|].
  exact (proj1 (proj1 (proj2 (send_panel_colours "localhost" (Num (9877 # 1)) no_fault "t0"
                                [CollectSettled 0 host_m1 "t1" "t2"; SendSettled 0 "t3"])))
           H).
Defined.

(** ** After the component has unmounted *)

Section Unmounted.

Variable OSC_HOST : string.
Variable OSC_PORT : number.

Lemma step_unmounted (s : AppState) (ev : Event) :
  isMounted s = false -> intervalActive s = false ->
  isMounted (step OSC_HOST OSC_PORT s ev) = false
  /\ intervalActive (step OSC_HOST OSC_PORT s ev) = false
  /\ cpuStats (step OSC_HOST OSC_PORT s ev) = cpuStats s
  /\ lastSend (step OSC_HOST OSC_PORT s ev) = lastSend s
  /\ isLoading (step OSC_HOST OSC_PORT s ev) = isLoading s
  /\ started (step OSC_HOST OSC_PORT s ev) = started s
  /\ List.length (inFlight (step OSC_HOST OSC_PORT s ev)) <= List.length (inFlight s).
Proof.
  intros Hm Hi. unfold step. destruct (exited s); [now repeat split|].
  destruct ev as [|id host collectedAt now|id now| |].
  - rewrite Hi. now repeat split.
  - destruct (lookup id (inFlight s)) as [[|r]|]; try now repeat split.
    unfold monitor_collected.
    destruct (collectCPUStats host collectedAt) as [stats|e].
    + destruct (sendStats OSC_HOST OSC_PORT stats now (oscPort s)) as [r w]. simpl.
      rewrite Hm. repeat split; try assumption.
      unfold set_phase. now rewrite length_map.
    + simpl. rewrite Hm. repeat split; try assumption. apply filter_length_le.
  - destruct (lookup id (inFlight s)) as [[|[r|e]]|]; try now repeat split.
    + simpl. rewrite Hm. repeat split; try assumption. apply filter_length_le.
    + simpl. rewrite Hm. repeat split; try assumption. apply filter_length_le.
  - unfold unmount. rewrite Hm. now repeat split.
  - unfold shutdown, unmount; simpl. rewrite Hm. simpl. now repeat split.
Qed.

Lemma run_unmounted (evs : list Event) :
  forall s,
    isMounted s = false -> intervalActive s = false ->
    cpuStats (run OSC_HOST OSC_PORT s evs) = cpuStats s
    /\ lastSend (run OSC_HOST OSC_PORT s evs) = lastSend s
    /\ isLoading (run OSC_HOST OSC_PORT s evs) = isLoading s
    /\ started (run OSC_HOST OSC_PORT s evs) = started s
    /\ List.length (inFlight (run OSC_HOST OSC_PORT s evs)) <= List.length (inFlight s).
Proof.
  induction evs as [|ev evs IH]; intros s Hm Hi; [now repeat split|].
  change (run OSC_HOST OSC_PORT s (ev :: evs))
    with (run OSC_HOST OSC_PORT (step OSC_HOST OSC_PORT s ev) evs).
  destruct (step_unmounted s ev Hm Hi) as (H1 & H2 & H3 & H4 & H5 & H6 & H7).
  destruct (IH _ H1 H2) as (I3 & I4 & I5 & I6 & I7).
  rewrite I3, I4, I5, I6. repeat split; try assumption. lia.
Qed.

End Unmounted.

(** X8.  Unmounting freezes what the UI holds: from the moment the
    effect's cleanup has run, no later event changes the snapshot, the
    last result or the loading flag, no tick starts a cycle, and the
    cycles in flight only finish. *)
Theorem unmount_freezes_state :
  forall OSC_HOST OSC_PORT fault t0 before after,
    forallb keeps_running before = true ->
    cpuStats (run OSC_HOST OSC_PORT
                (step OSC_HOST OSC_PORT
                   (run OSC_HOST OSC_PORT (App_mounted fault t0) before) Unmount) after)
    = cpuStats (run OSC_HOST OSC_PORT (App_mounted fault t0) before)
    /\ lastSend (run OSC_HOST OSC_PORT
                   (step OSC_HOST OSC_PORT
                      (run OSC_HOST OSC_PORT (App_mounted fault t0) before) Unmount) after)
       = lastSend (run OSC_HOST OSC_PORT (App_mounted fault t0) before)
    /\ isLoading (run OSC_HOST OSC_PORT
                    (step OSC_HOST OSC_PORT
                       (run OSC_HOST OSC_PORT (App_mounted fault t0) before) Unmount) after)
       = isLoading (run OSC_HOST OSC_PORT (App_mounted fault t0) before)
    /\ started (run OSC_HOST OSC_PORT
                  (step OSC_HOST OSC_PORT
                     (run OSC_HOST OSC_PORT (App_mounted fault t0) before) Unmount) after)
       = started (run OSC_HOST OSC_PORT (App_mounted fault t0) before)
    /\ List.length
         (inFlight (run OSC_HOST OSC_PORT
                      (step OSC_HOST OSC_PORT
                         (run OSC_HOST OSC_PORT (App_mounted fault t0) before) Unmount) after))
       <= List.length (inFlight (run OSC_HOST OSC_PORT (App_mounted fault t0) before)).
Proof.
  intros OSC_HOST OSC_PORT fault t0 before after Hb.
  destruct (running_run OSC_HOST OSC_PORT before (App_mounted fault t0) Hb
              (running_mounted fault t0))
    as (Hex & Hm & Hi & _ & _).
  set (s := run OSC_HOST OSC_PORT (App_mounted fault t0) before) in *.
  assert (E : step OSC_HOST OSC_PORT s Unmount = App_cleanup s).
  { unfold step, unmount. now rewrite Hex, Hm. }
  rewrite E.
  exact (run_unmounted OSC_HOST OSC_PORT after (App_cleanup s) eq_refl eq_refl).
Qed.

(** X9.  A cycle that is still collecting when the component unmounts
    is not cancelled: when its collection succeeds later, [sendStats]
    still runs, on the port the cleanup has already closed, while the
    snapshot and the result are no longer recorded. *)
Theorem cycle_in_flight_sends_after_unmount :
  forall OSC_HOST OSC_PORT fault t0 before id host collectedAt now stats,
    forallb keeps_running before = true ->
    lookup id (inFlight (run OSC_HOST OSC_PORT (App_mounted fault t0) before))
    = Some Collecting ->
    collectCPUStats host collectedAt = Returned stats ->
    exists p,
      oscPort (run OSC_HOST OSC_PORT (App_mounted fault t0) before) = Some p
      /\ closeCalls p = 0
      /\ oscPort (run OSC_HOST OSC_PORT (run OSC_HOST OSC_PORT (App_mounted fault t0) before)
                    [Unmount; CollectSettled id host collectedAt now])
         = snd (sendStats OSC_HOST OSC_PORT stats now (Some (UDPPort_close p)))
      /\ cpuStats (run OSC_HOST OSC_PORT (run OSC_HOST OSC_PORT (App_mounted fault t0) before)
                     [Unmount; CollectSettled id host collectedAt now])
         = cpuStats (run OSC_HOST OSC_PORT (App_mounted fault t0) before).
Proof.
  intros OSC_HOST OSC_PORT fault t0 before id host collectedAt now stats Hb Hid Hc.
  destruct (running_run OSC_HOST OSC_PORT before (App_mounted fault t0) Hb
              (running_mounted fault t0))
    as (Hex & Hm & Hi & (p & Hp & Hcl) & _).
  set (s := run OSC_HOST OSC_PORT (App_mounted fault t0) before) in *.
  exists p. split; [exact Hp|]. split; [exact Hcl|].
  change (run OSC_HOST OSC_PORT s [Unmount; CollectSettled id host collectedAt now])
    with (step OSC_HOST OSC_PORT (step OSC_HOST OSC_PORT s Unmount)
            (CollectSettled id host collectedAt now)).
  assert (E : step OSC_HOST OSC_PORT s Unmount = App_cleanup s).
  { unfold step, unmount. now rewrite Hex, Hm. }
  rewrite E. unfold step. cbn [exited App_cleanup inFlight]. rewrite Hex, Hid.
  unfold monitor_collected. rewrite Hc. cbn [oscPort App_cleanup]. rewrite Hp.
  cbn [close_if_open].
  destruct (sendStats OSC_HOST OSC_PORT stats now (Some (UDPPort_close p))) as [r w].
  split; reflexivity.
Qed.

(** X8, with a tick and a settled collection after the unmount. *)
Lemma unmount_freezes_state_witness :
  forallb keeps_running [] = true
  /\ cpuStats (run "localhost" (Num (9877 # 1))
                 (step "localhost" (Num (9877 # 1))
                    (run "localhost" (Num (9877 # 1)) (App_mounted no_fault "t0") []) Unmount)
                 [Tick; CollectSettled 0 host_m1 "t1" "t2"])
     = cpuStats (run "localhost" (Num (9877 # 1)) (App_mounted no_fault "t0") []).
Proof.
  assert (H : forallb keeps_running [] = true) by reflexivity.
  split; [exact H|].
  exact (proj1 (unmount_freezes_state "localhost" (Num (9877 # 1)) no_fault "t0" []
                  [Tick; CollectSettled 0 host_m1 "t1" "t2"] H)).
Defined.

(** X9, when the first cycle settles after the unmount. *)
Lemma cycle_in_flight_sends_after_unmount_witness :
  forallb keeps_running [] = true
  /\ lookup 0 (inFlight (run "localhost" (Num (9877 # 1)) (App_mounted no_fault "t0") []))
     = Some Collecting
  /\ collectCPUStats host_m1 "2025-11-12T01:23:45.789Z" = Returned snapshot_m1
  /\ exists p,
       oscPort (run "localhost" (Num (9877 # 1)) (App_mounted no_fault "t0") []) = Some p
       /\ closeCalls p = 0
       /\ oscPort (run "localhost" (Num (9877 # 1))
                     (run "localhost" (Num (9877 # 1)) (App_mounted no_fault "t0") [])
                     [Unmount; CollectSettled 0 host_m1 "2025-11-12T01:23:45.789Z" "t2"])
          = snd (sendStats "localhost" (Num (9877 # 1)) snapshot_m1 "t2"
                   (Some (UDPPort_close p)))
       /\ cpuStats (run "localhost" (Num (9877 # 1))
                      (run "localhost" (Num (9877 # 1)) (App_mounted no_fault "t0") [])
                      [Unmount; CollectSettled 0 host_m1 "2025-11-12T01:23:45.789Z" "t2"])
          = cpuStats (run "localhost" (Num (9877 # 1)) (App_mounted no_fault "t0") []).
Proof.
  assert (H1 : forallb keeps_running [] = true) by reflexivity.
  assert (H2 : lookup 0 (inFlight (run "localhost" (Num (9877 # 1))
                                     (App_mounted no_fault "t0") []))
               = Some Collecting) by reflexivity.
  assert (H3 : collectCPUStats host_m1 "2025-11-12T01:23:45.789Z" = Returned snapshot_m1)
    by reflexivity.
  split; [exact H1|]. split; [exact H2|]. split; [exact H3|].
  exact (cycle_in_flight_sends_after_unmount "localhost" (Num (9877 # 1)) no_fault "t0" []
           0 host_m1 "2025-11-12T01:23:45.789Z" "t2" snapshot_m1 H1 H2 H3).
Defined.

(** ** The receiver of [test-server.ts] *)

Lemma log_cores_accepts (items : list Receiver.json) :
  Receiver.log_cores items
  = if forallb Receiver.has_properties items then Returned tt
    else Threw (ErrorObj "Cannot read properties of null (reading 'core')").
Proof.
  induction items as [|core items IH]; [reflexivity|].
  cbn [Receiver.log_cores forallb].
  destruct core; cbn; try exact IH; reflexivity.
Qed.

Lemma string_eqb_empty (s : string) :
  String.eqb s "" = match s with EmptyString => true | String _ _ => false end.
Proof. now destruct s. Qed.

Lemma string_length_above_zero (s : string) :
  negb (Qle_bool (inject_Z (Z.of_nat (String.length s))) 0) = negb (String.eqb s "").
Proof.
  destruct s as [|c s]; [reflexivity|].
  cbn [String.length String.eqb].
  unfold Qle_bool, inject_Z; cbn [Qnum Qden].
  rewrite (proj2 (Z.leb_gt _ _)) by lia. reflexivity.
Qed.

Lemma list_length_above_zero {A : Type} (l : list A) :
  negb (Qle_bool (inject_Z (Z.of_nat (List.length l))) 0)
  = match l with [] => false | _ => true end.
Proof.
  destruct l as [|x l]; [reflexivity|].
  cbn [List.length]. unfold Qle_bool, inject_Z; cbn [Qnum Qden].
  rewrite (proj2 (Z.leb_gt _ _)) by lia. reflexivity.
Qed.

Ltac log_goes_through := split; [split; intros _; reflexivity | discriminate].
Ltac log_throws := split; [split; discriminate | intros _; eexists; reflexivity].
Ltac log_settled := cbn; first [log_goes_through | log_throws].

(** The logging goes through exactly on the accepted bodies. *)
Lemma log_stats_accepts (converts_above_zero : Receiver.json -> bool) (data : Receiver.json) :
  (Receiver.log_stats converts_above_zero data = Returned tt
   <-> Receiver.accepted converts_above_zero data = true)
  /\ (Receiver.accepted converts_above_zero data = false ->
      exists e, Receiver.log_stats converts_above_zero data = Threw e).
Proof.
  unfold Receiver.log_stats, Receiver.accepted.
  destruct data as [| | | | |members]; try log_settled.
  cbn [Receiver.get bind].
  unfold Receiver.present, Receiver.perCore_accepted.
  destruct (Receiver.member "cpu" members) as [[|?|?|?|?|?]|]; try log_settled.
  all: destruct (Receiver.member "usage" members) as [[|?|?|?|?|?]|]; try log_settled.
  all: cbn [Receiver.get bind Receiver.has_properties andb].
  all: destruct (Receiver.member "perCore" members) as [[|pb|px|ps|pitems|pms]|].
  all: cbn [Receiver.truthy Receiver.get bind String.eqb Ascii.eqb Bool.eqb].
  all: try log_goes_through.
  all: try (destruct pb; cbn [Receiver.above_zero]; log_goes_through).
  all: try (destruct (negb (Qeq_bool px 0)); cbn [Receiver.above_zero]; log_goes_through).
  all: try (destruct ps as [|c ps]; cbn [negb String.eqb];
            [ log_goes_through
            | cbn [Receiver.above_zero]; rewrite string_length_above_zero; log_throws ]).
  all: try (cbn [Receiver.above_zero]; rewrite list_length_above_zero;
            destruct pitems as [|core pitems];
            [ log_goes_through
            | rewrite log_cores_accepts;
              destruct (forallb Receiver.has_properties (core :: pitems));
              first [log_goes_through | log_throws] ]).
  all: destruct (Receiver.above_zero converts_above_zero
                   match Receiver.member "length" pms with
                   | Some j => Receiver.Val j
                   | None => Receiver.Undef
                   end); cbn [negb]; first [log_goes_through | log_throws].
Qed.

Lemma parse_and_log_accepts (JSON_parse : string -> completion Receiver.json)
    (converts_above_zero : Receiver.json -> bool) (body : string) :
  Receiver.parse_and_log JSON_parse converts_above_zero body = Returned tt
  <-> exists data, JSON_parse body = Returned data
                   /\ Receiver.accepted converts_above_zero data = true.
Proof.
  unfold Receiver.parse_and_log. split.
  - intros H. apply bind_Returned in H. destruct H as (data & Hd & H).
    exists data. split; [exact Hd|]. now apply (log_stats_accepts converts_above_zero data).
  - intros (data & Hd & H). rewrite Hd. cbn [bind].
    now apply (log_stats_accepts converts_above_zero data).
Qed.


Lemma forallb_has_properties_perCore (cs : list CoreStats) :
  forallb Receiver.has_properties
    (map (fun c =>
            Receiver.JObj
              [ ("core", Receiver.JNum (inject_Z (Z.of_nat (core c))));
                ("load", Receiver.json_of_number (load c));
                ("loadUser", Receiver.json_of_number (loadUser c));
                ("loadSystem", Receiver.json_of_number (loadSystem c));
                ("loadIdle", Receiver.json_of_number (loadIdle c)) ]) cs)
  = true.
Proof. induction cs as [|c cs IH]; [reflexivity | exact IH]. Qed.

Lemma accepted_json_of_stats (converts_above_zero : Receiver.json -> bool) (stats : CPUStats) :
  Receiver.accepted converts_above_zero (Receiver.json_of_stats stats) = true.
Proof.
  unfold Receiver.accepted, Receiver.json_of_stats, Receiver.present,
    Receiver.perCore_accepted.
  cbn [Receiver.member String.eqb Ascii.eqb Bool.eqb Receiver.has_properties andb].
  apply forallb_has_properties_perCore.
Qed.

(** X11.  The receiver accepts what the HTTP-POST client sends: when the
    body parses back to the snapshot that was serialised, whatever the
    snapshot (no cores, [NaN] fields), [POST /cpu-stats] is answered 200,
    and the client that gets this status reports success with status code
    200. *)
Theorem test_server_accepts_client_snapshot :
  forall JSON_parse converts_above_zero req stats now,
    TestServer.method req = "POST" ->
    TestServer.url req = "/cpu-stats" ->
    JSON_parse (TestServer.body req) = Returned (Receiver.json_of_stats stats) ->
    Receiver.server JSON_parse converts_above_zero req
    = {| TestServer.statusCode := 200;
         TestServer.responseBody := [("status", "ok"); ("received", "true")] |}
    /\ HttpPost.sendStats
         (HttpPost.Resolved
            (Z.of_nat (TestServer.statusCode
                         (Receiver.server JSON_parse converts_above_zero req)))) now
       = Returned {| HttpPost.success := true; HttpPost.status := "OK";
                     HttpPost.statusCode := Some 200%Z; HttpPost.error := None;
                     HttpPost.timestamp := now |}.
Proof.
  intros JSON_parse converts_above_zero req stats now Hm Hu Hp.
  assert (E : Receiver.server JSON_parse converts_above_zero req
              = {| TestServer.statusCode := 200;
                   TestServer.responseBody := [("status", "ok"); ("received", "true")] |}).
  { unfold Receiver.server, TestServer.server. rewrite Hm, Hu.
    change (String.eqb "POST" "POST" && String.eqb "/cpu-stats" "/cpu-stats") with true.
    cbv iota.
    assert (H : Receiver.parse_and_log JSON_parse converts_above_zero (TestServer.body req)
                = Returned tt).
    { apply parse_and_log_accepts. exists (Receiver.json_of_stats stats).
      split; [exact Hp | apply accepted_json_of_stats]. }
    rewrite H. reflexivity. }
  split; [exact E|]. rewrite E. reflexivity.
Qed.

(** ** The menu bar poller *)

Lemma string_append_assoc (a b c : string) : ((a ++ b) ++ c = a ++ (b ++ c))%string.
Proof. induction a as [|x a IH]; [reflexivity | cbn; now rewrite IH]. Qed.

Lemma string_append_nil_r (a : string) : (a ++ "" = a)%string.
Proof. induction a as [|x a IH]; [reflexivity | cbn; now rewrite IH]. Qed.

Lemma string_length_append (a b : string) :
  String.length (a ++ b) = String.length a + String.length b.
Proof. induction a as [|x a IH]; [reflexivity | cbn; now rewrite IH]. Qed.

Lemma substring_all (s : string) : substring 0 (String.length s) s = s.
Proof. induction s as [|x s IH]; [reflexivity | cbn; now rewrite IH]. Qed.

Lemma substring_append (a b : string) :
  substring (String.length a) (String.length b) (a ++ b) = b.
Proof. induction a as [|x a IH]; [apply substring_all | exact IH]. Qed.

Lemma hasSuffix_append (a suffix : string) : MenuBar.hasSuffix suffix (a ++ suffix) = true.
Proof.
  unfold MenuBar.hasSuffix. rewrite string_length_append.
  replace (String.length a + String.length suffix - String.length suffix)
    with (String.length a) by lia.
  rewrite substring_append, String.eqb_refl.
  rewrite (proj2 (Nat.leb_le _ _)) by lia. reflexivity.
Qed.

(** A decimal numeral holds no separator: splitting reads through it. *)
Lemma split_from_numeral (d : Decimal.uint) :
  forall rest piece,
    MenuBar.split_from "/" (NilEmpty.string_of_uint d ++ rest) piece
    = MenuBar.split_from "/" rest (piece ++ NilEmpty.string_of_uint d).
Proof.
  induction d; intros rest piece;
    try (cbn [NilEmpty.string_of_uint String.append MenuBar.split_from];
         match goal with
         | |- context [Ascii.eqb ?c "/"] => change (Ascii.eqb c "/") with false
         end;
         cbv iota; rewrite IHd, string_append_assoc; reflexivity).
  cbn [NilEmpty.string_of_uint String.append]. now rewrite string_append_nil_r.
Qed.

Lemma all_digits_numeral (d : Decimal.uint) :
  forall acc, MenuBar.all_digits acc (NilEmpty.string_of_uint d) = Some (digits_value d acc).
Proof.
  induction d; intros acc; cbn [NilEmpty.string_of_uint MenuBar.all_digits digits_value];
    try reflexivity;
    match goal with
    | |- context [Config.digit_of ?c] =>
        let v := eval vm_compute in (Config.digit_of c) in
        change (Config.digit_of c) with v
    end;
    cbv iota beta; apply IHd.
Qed.

Lemma all_digits_string_of_nat (n : nat) :
  MenuBar.all_digits 0 (string_of_nat n) = Some (Z.of_nat n).
Proof.
  unfold string_of_nat. rewrite all_digits_numeral.
  change 0%Z with (Z.of_nat 0). rewrite digits_value_of_uint_acc.
  change (Nat.of_uint_acc (Nat.to_uint n) 0) with (Nat.of_uint (Nat.to_uint n)).
  now rewrite DecimalNat.Unsigned.of_to.
Qed.

Lemma Int_of_string_of_nat (n : nat) :
  (Z.of_nat n <= MenuBar.Int_max)%Z ->
  MenuBar.Int_of_string (string_of_nat n) = Some (Z.of_nat n).
Proof.
  intros Hn. unfold MenuBar.Int_of_string.
  pose proof (all_digits_string_of_nat n) as Hd.
  destruct (string_of_nat_head n) as (c & r & E & _ & Hm & Hp).
  rewrite E in *.
  assert (Hfit : (MenuBar.Int_min <=? Z.of_nat n)%Z && (Z.of_nat n <=? MenuBar.Int_max)%Z
                 = true).
  { apply andb_true_intro. split; apply Z.leb_le; [|exact Hn].
    unfold MenuBar.Int_min. lia. }
  destruct c as [b0 b1 b2 b3 b4 b5 b6 b7].
  destruct b0, b1, b2, b3, b4, b5, b6, b7;
    try (exfalso; apply Hm; reflexivity); try (exfalso; apply Hp; reflexivity);
    rewrite Hd; cbv iota beta; rewrite Hfit; reflexivity.
Qed.

(** X12.  The menu bar reads back the core number the sink writes: the
    address [/cpu/core/{n}/load] that [sendStats] builds for core [n] is
    recognised by the poller's name test and parsed to [n], for every core
    number that fits a 64-bit [Int]. *)
Theorem menu_bar_reads_core_address :
  forall n,
    (Z.of_nat n <= MenuBar.Int_max)%Z ->
    MenuBar.core_of_name (core_address n) = Some (Z.of_nat n)
    /\ MenuBar.split "/" (core_address n) = ["cpu"; "core"; string_of_nat n; "load"].
Proof.
  intros n Hn.
  assert (Hsplit : MenuBar.split "/" (core_address n)
                   = ["cpu"; "core"; string_of_nat n; "load"]).
  { unfold MenuBar.split, core_address.
    cbn [String.append MenuBar.split_from Ascii.eqb Bool.eqb].
    unfold string_of_nat. rewrite split_from_numeral.
    cbn [String.append].
    destruct (string_of_nat_head n) as (c & r & E & _). unfold string_of_nat in E.
    rewrite E. cbn [MenuBar.split_from Ascii.eqb Bool.eqb String.append].
    reflexivity. }
  split; [|exact Hsplit].
  unfold MenuBar.core_of_name. rewrite Hsplit.
  assert (Hpre : String.prefix "/cpu/core/" (core_address n) = true).
  { unfold core_address. cbn. now destruct (string_of_nat n ++ "/load")%string. }
  assert (Hsuf : MenuBar.hasSuffix "/load" (core_address n) = true).
  { unfold core_address. rewrite <- string_append_assoc. apply hasSuffix_append. }
  rewrite Hpre, Hsuf. cbn [andb List.length Nat.leb nth].
  now apply Int_of_string_of_nat.
Qed.

(** X12, on core 9. *)
Lemma menu_bar_reads_core_address_witness :
  (Z.of_nat 9 <= MenuBar.Int_max)%Z
  /\ MenuBar.core_of_name "/cpu/core/9/load" = Some 9%Z.
Proof.
  assert (H : (Z.of_nat 9 <= MenuBar.Int_max)%Z) by (vm_compute; discriminate).
  split; [exact H|].
  exact (proj1 (menu_bar_reads_core_address 9 H)).
Defined.

Lemma visit_entries (acc : option Q * list (Z * Q)) (item : MenuBar.Item) :
  MenuBar.visit acc item
  = (match total_entry item with Some v => Some v | None => fst acc end,
     (snd acc ++ core_entries item)%list).
Proof.
  destruct acc as [t cs]. unfold MenuBar.visit, total_entry, core_entries, MenuBar.core_of_name.
  destruct (MenuBar.name item) as [n|]; [|now rewrite app_nil_r].
  destruct (String.eqb_spec n "/cpu/usage/total") as [->|Hn].
  - destruct (MenuBar.value item) as [v|]; cbn; now rewrite app_nil_r.
  - destruct (String.prefix "/cpu/core/" n && MenuBar.hasSuffix "/load" n);
      [|destruct (MenuBar.value item); cbn; now rewrite app_nil_r].
    destruct (MenuBar.value item) as [v|]; [|cbn; now rewrite app_nil_r].
    destruct (4 <=? List.length (MenuBar.split "/" n)); [|cbn; now rewrite app_nil_r].
    destruct (MenuBar.Int_of_string (nth 2 (MenuBar.split "/" n) "")) as [c|];
      cbn; [reflexivity | now rewrite app_nil_r].
Qed.

Lemma fold_visit_entries (json : list MenuBar.Item) :
  forall t cs,
    fold_left MenuBar.visit json (t, cs)
    = (last_total json t, (cs ++ flat_map core_entries json)%list).
Proof.
  induction json as [|item json IH]; intros t cs.
  - cbn. now rewrite app_nil_r.
  - cbn [fold_left flat_map]. rewrite visit_entries. cbn [fst snd].
    rewrite IH. unfold last_total at 2. cbn [fold_left].
    now rewrite app_assoc.
Qed.

Lemma insert_permutation (e : Z * Q) (l : list (Z * Q)) :
  Permutation.Permutation (MenuBar.insert e l) (e :: l).
Proof.
  induction l as [|x l IH]; cbn; [apply Permutation.Permutation_refl|].
  destruct (fst x <=? fst e)%Z; [|apply Permutation.Permutation_refl].
  eapply Permutation.perm_trans; [apply Permutation.perm_skip, IH | apply Permutation.perm_swap].
Qed.

Lemma sort_permutation (l : list (Z * Q)) : Permutation.Permutation (MenuBar.sort l) l.
Proof.
  induction l as [|e l IH]; cbn; [constructor|].
  eapply Permutation.perm_trans; [apply insert_permutation | now apply Permutation.perm_skip].
Qed.

Lemma insert_sorted (e : Z * Q) (l : list (Z * Q)) :
  Sorted.Sorted by_core l -> Sorted.Sorted by_core (MenuBar.insert e l).
Proof.
  induction 1 as [|x l Hl IH Hx]; cbn; [repeat constructor|].
  destruct (Z.leb_spec (fst x) (fst e)) as [Hle|Hgt].
  - constructor; [exact IH|].
    destruct l as [|y l]; cbn.
    + constructor. exact Hle.
    + destruct (fst y <=? fst e)%Z; constructor; [now inversion Hx | exact Hle].
  - constructor; [now constructor|]. constructor. unfold by_core. lia.
Qed.

Lemma sort_sorted (l : list (Z * Q)) : Sorted.Sorted by_core (MenuBar.sort l).
Proof. induction l as [|e l IH]; cbn; [constructor | now apply insert_sorted]. Qed.

(** X13.  Whatever the order and the content of the decoded array, the
    cores the menu lists are exactly the elements named like a core
    address with a numeric value, each once, in ascending core order; the
    total is the one of the last element named "/cpu/usage/total" with a
    numeric value, and none when there is no such element. *)
Theorem menu_bar_extract :
  forall json,
    fst (MenuBar.extract json) = last_total json None
    /\ Permutation.Permutation (snd (MenuBar.extract json)) (flat_map core_entries json)
    /\ Sorted.Sorted by_core (snd (MenuBar.extract json)).
Proof.
  intros json. unfold MenuBar.extract. rewrite fold_visit_entries. cbn [fst snd app].
  split; [reflexivity|]. split; [apply sort_permutation | apply sort_sorted].
Qed.

(** X14.  The menu bar and the terminal UI colour a total alike: red from
    80 on, orange or yellow from 50 on, green below. *)
Theorem menu_bar_tint_agrees :
  forall t,
    (MenuBar.tint (Some t) = "systemRed" <-> getUsageColor (Num t) = "red")
    /\ (MenuBar.tint (Some t) = "systemOrange" <-> getUsageColor (Num t) = "yellow")
    /\ (MenuBar.tint (Some t) = "systemGreen" <-> getUsageColor (Num t) = "green").
Proof.
  intros t. unfold MenuBar.tint, getUsageColor, number_ge.
  destruct (Qle_bool (80 # 1) t); [repeat split; intros H; (reflexivity || discriminate H)|].
  destruct (Qle_bool (50 # 1) t); repeat split; intros H; (reflexivity || discriminate H).
Qed.

Lemma length_concat_repeat (c : ascii) (n : nat) :
  String.length (String.concat "" (repeat (String c "") n)) = n.
Proof.
  induction n as [|n IH]; [reflexivity|].
  cbn [repeat String.concat].
  destruct n as [|n]; [reflexivity|].
  cbn [repeat] in *. cbn [String.append String.length]. now rewrite IH.
Qed.

Lemma Qdiv_100_times_10 (v : Q) : (v / (100 # 1) * (10 # 1) == v * (1 # 10))%Q.
Proof. unfold Qdiv. change (/ (100 # 1))%Q with (1 # 100)%Q. ring. Qed.

(** X15.  For a load between 0 and 100 [makeBar] returns a bar of ten
    cells between brackets, twelve characters in all.  A load of 110 or
    more, or of -10 or less, makes it ask for a string of negative length,
    on which Swift traps: the function returns nothing. *)
Theorem makeBar_cells :
  forall v,
    ((0 <= v)%Q -> (v <= 100 # 1)%Q ->
     exists filled : nat,
       filled <= 10
       /\ MenuBar.makeBar v
          = Some ("[" ++ String.concat "" (repeat "|" filled)
                  ++ String.concat "" (repeat " " (10 - filled)) ++ "]")
       /\ option_map String.length (MenuBar.makeBar v) = Some 12)
    /\ ((110 # 1 <= v)%Q -> MenuBar.makeBar v = None)
    /\ ((v <= - (10 # 1))%Q -> MenuBar.makeBar v = None).
Proof.
  intros v. unfold MenuBar.makeBar, MenuBar.Int_of_Double.
  pose proof (Qdiv_100_times_10 v) as Hx.
  set (x := (v / (100 # 1) * (10 # 1))%Q) in *.
  split; [|split].
  - intros H0 H100.
    assert (Hx0 : (0 <= x)%Q) by (rewrite Hx; lra).
    assert (Hx10 : (x <= 10 # 1)%Q) by (rewrite Hx; lra).
    apply Qle_bool_iff in Hx0 as Hb. rewrite Hb.
    assert (Hf0 : (0 <= Qfloor x)%Z).
    { change 0%Z with (Qfloor (0 # 1)). now apply Qfloor_resp_le. }
    assert (Hf10 : (Qfloor x <= 10)%Z).
    { change 10%Z with (Qfloor (10 # 1)). now apply Qfloor_resp_le. }
    assert (Hfit : (MenuBar.Int_min <=? Qfloor x)%Z && (Qfloor x <=? MenuBar.Int_max)%Z
                   = true).
    { apply andb_true_intro. unfold MenuBar.Int_min, MenuBar.Int_max.
      split; apply Z.leb_le; lia. }
    rewrite Hfit. unfold MenuBar.repeating.
    rewrite (proj2 (Z.ltb_ge _ _)) by lia.
    rewrite (proj2 (Z.ltb_ge _ _)) by lia.
    exists (Z.to_nat (Qfloor x)).
    replace (Z.to_nat (10 - Qfloor x)) with (10 - Z.to_nat (Qfloor x)) by lia.
    split; [lia|]. split; [reflexivity|].
    cbn [option_map String.append String.length]. f_equal. f_equal.
    rewrite !string_length_append, !length_concat_repeat. cbn [String.length]. lia.
  - intros H110.
    assert (Hx11 : (11 # 1 <= x)%Q) by (rewrite Hx; lra).
    assert (Hb : Qle_bool 0 x = true) by (apply Qle_bool_iff; lra).
    rewrite Hb.
    assert (Hf : (11 <= Qfloor x)%Z).
    { change 11%Z with (Qfloor (11 # 1)). now apply Qfloor_resp_le. }
    destruct ((MenuBar.Int_min <=? Qfloor x)%Z && (Qfloor x <=? MenuBar.Int_max)%Z);
      [|reflexivity].
    unfold MenuBar.repeating.
    rewrite (proj2 (Z.ltb_ge (Qfloor x) 0)) by lia.
    rewrite (proj2 (Z.ltb_lt _ _)) by lia. reflexivity.
  - intros Hneg.
    assert (Hx1 : (x <= - (1 # 1))%Q) by (rewrite Hx; lra).
    assert (Hb : Qle_bool 0 x = false).
    { destruct (Qle_bool 0 x) eqn:E; [|reflexivity]. apply Qle_bool_iff in E. lra. }
    rewrite Hb.
    assert (Hc : (Qceiling x <= -1)%Z).
    { change (-1)%Z with (Qceiling (- (1 # 1))). now apply Qceiling_resp_le. }
    destruct ((MenuBar.Int_min <=? Qceiling x)%Z && (Qceiling x <=? MenuBar.Int_max)%Z);
      [|reflexivity].
    unfold MenuBar.repeating.
    rewrite (proj2 (Z.ltb_lt _ _)) by lia. reflexivity.
Qed.

(** X15, on a load of 46.45 and on a load of 250. *)
Lemma makeBar_cells_witness :
  (0 <= 4645 # 100)%Q /\ (4645 # 100 <= 100 # 1)%Q
  /\ (110 # 1 <= 250 # 1)%Q
  /\ option_map String.length (MenuBar.makeBar (4645 # 100)) = Some 12
  /\ MenuBar.makeBar (250 # 1) = None.
Proof.
  assert (H0 : (0 <= 4645 # 100)%Q) by (unfold Qle; simpl; lia).
  assert (H1 : (4645 # 100 <= 100 # 1)%Q) by (unfold Qle; simpl; lia).
  assert (H2 : (110 # 1 <= 250 # 1)%Q) by (unfold Qle; simpl; lia).
  split; [exact H0|]. split; [exact H1|]. split; [exact H2|].
  split.
  - destruct (proj1 (makeBar_cells (4645 # 100)) H0 H1) as (filled & _ & _ & H). exact H.
  - exact (proj1 (proj2 (makeBar_cells (250 # 1))) H2).
Defined.

(** X16.  The poller's port is 3000 unless [HTTP_PORT] is a plain number:
    a decimal numeral that fits an [Int] is taken as it is, while an unset
    variable, an empty one, or one with anything after the digits falls
    back to 3000. *)
Theorem httpPort_default :
  forall env,
    (env "HTTP_PORT" = None -> MenuBar.httpPort env = 3000%Z)
    /\ (env "HTTP_PORT" = Some "" -> MenuBar.httpPort env = 3000%Z)
    /\ (forall n, env "HTTP_PORT" = Some (string_of_nat n) ->
                  (Z.of_nat n <= MenuBar.Int_max)%Z ->
                  MenuBar.httpPort env = Z.of_nat n)
    /\ (forall n c rest, env "HTTP_PORT" = Some (string_of_nat n ++ String c rest) ->
                         Config.digit_of c = None ->
                         MenuBar.httpPort env = 3000%Z).
Proof.
  intros env. unfold MenuBar.httpPort. repeat split.
  - intros ->. reflexivity.
  - intros ->. reflexivity.
  - intros n -> Hn. now rewrite Int_of_string_of_nat.
  - intros n c rest -> Hc.
    assert (Hnone : MenuBar.Int_of_string (string_of_nat n ++ String c rest) = None).
    { unfold MenuBar.Int_of_string.
      assert (Hd : forall d acc,
                 MenuBar.all_digits acc (NilEmpty.string_of_uint d ++ String c rest) = None).
      { induction d; intros acc;
          cbn [NilEmpty.string_of_uint String.append MenuBar.all_digits];
          try (rewrite Hc; reflexivity);
          match goal with
          | |- context [Config.digit_of ?a] =>
              let v := eval vm_compute in (Config.digit_of a) in
              change (Config.digit_of a) with v
          end;
          cbv iota beta; apply IHd. }
      destruct (string_of_nat_head n) as (a & r & E & _ & Hm & Hp).
      pose proof (Hd (Nat.to_uint n) 0%Z) as Hd0. fold (string_of_nat n) in Hd0.
      rewrite E in *. cbn [String.append] in *.
      destruct a as [b0 b1 b2 b3 b4 b5 b6 b7].
      destruct b0, b1, b2, b3, b4, b5, b6, b7;
        try (exfalso; apply Hm; reflexivity); try (exfalso; apply Hp; reflexivity);
        rewrite Hd0; reflexivity. }
    now rewrite Hnone.
Qed.

(** X16, on [HTTP_PORT=4000] and on [HTTP_PORT=4000/tcp]. *)
Lemma httpPort_default_witness :
  MenuBar.httpPort (Config.env_with "HTTP_PORT" "4000") = 4000%Z
  /\ MenuBar.httpPort (Config.env_with "HTTP_PORT" "4000/tcp") = 3000%Z.
Proof.
  split.
  - apply (proj1 (proj2 (proj2 (httpPort_default (Config.env_with "HTTP_PORT" "4000")))) 4000).
    + reflexivity.
    + vm_compute. discriminate.
  - apply (proj2 (proj2 (proj2 (httpPort_default (Config.env_with "HTTP_PORT" "4000/tcp"))))
             4000 "/"%char "tcp").
    + reflexivity.
    + reflexivity.
Defined.


(** X11, on the README's snapshot. *)
Lemma test_server_accepts_client_snapshot_witness :
  TestServer.statusCode
    (Receiver.server (parses_to (Receiver.json_of_stats snapshot_m1)) never_above_zero
       (post_stats "snapshot"))
  = 200.
Proof.
  rewrite (proj1 (test_server_accepts_client_snapshot
                    (parses_to (Receiver.json_of_stats snapshot_m1)) never_above_zero
                    (post_stats "snapshot") snapshot_m1 "t" eq_refl eq_refl eq_refl)).
  reflexivity.
Defined.

(** ** Rounding and colours *)

Lemma hundredths_at_least (q : Q) (k : Z) :
  (inject_Z k * (1 # 100) <= q)%Q -> (0 <= q)%Q -> (k <= hundredths q)%Z.
Proof.
  intros Hk H0. unfold hundredths.
  rewrite <- (Qfloor_half k). apply Qfloor_resp_le.
  assert (Habs : (Qabs q == q)%Q) by now apply Qabs_pos.
  change (inject_Z 100) with (100 # 1)%Q. lra.
Qed.

Lemma hundredths_below (q : Q) (k : Z) :
  (q < inject_Z k * (1 # 100) - (1 # 200))%Q -> (0 <= q)%Q -> (hundredths q < k)%Z.
Proof.
  intros Hk H0. unfold hundredths.
  assert (Habs : (Qabs q == q)%Q) by now apply Qabs_pos.
  pose proof (Qfloor_le (inject_Z 100 * Qabs q + (1 # 2))) as Hle.
  rewrite Zlt_Qlt. change (inject_Z 100) with (100 # 1)%Q in *. lra.
Qed.

(** X17.  Rounding keeps a load on its side of the colour thresholds: a
    load of 80 or more is still shown red after [parseFloat(x.toFixed(2))],
    one of 50 or more is never shown green, and a load below 49.995 is
    shown green. *)
Theorem rounding_keeps_colour :
  forall q,
    (0 <= q)%Q -> (q <= 100 # 1)%Q ->
    ((80 # 1 <= q)%Q -> getUsageColor (parseFloat_toFixed2 (Num q)) = "red")
    /\ ((50 # 1 <= q)%Q -> getUsageColor (parseFloat_toFixed2 (Num q)) <> "green")
    /\ ((q < 49995 # 1000)%Q -> getUsageColor (parseFloat_toFixed2 (Num q)) = "green").
Proof.
  intros q H0 H100.
  assert (E : parseFloat_toFixed2 (Num q) = Num (hundredths q # 100)).
  { unfold parseFloat_toFixed2.
    assert (Habs : (Qabs q == q)%Q) by now apply Qabs_pos.
    destruct (Qle_bool toFixed_limit (Qabs q)) eqn:Hbig.
    - apply Qle_bool_iff in Hbig. exfalso.
      assert (Hl : (100 # 1 < toFixed_limit)%Q) by reflexivity. lra.
    - apply Qle_bool_iff in H0 as Hb. now rewrite Hb. }
  rewrite E. unfold getUsageColor, number_ge.
  assert (Hge : forall k : Z, Qle_bool (k # 1) (hundredths q # 100)
                              = (100 * k <=? hundredths q)%Z).
  { intros k. unfold Qle_bool; cbn [Qnum Qden].
    rewrite Z.mul_1_r. f_equal. lia. }
  rewrite !Hge. repeat split.
  - intros H80.
    assert (H : (8000 <= hundredths q)%Z).
    { apply hundredths_at_least; [|exact H0]. change (inject_Z 8000) with (8000 # 1)%Q. lra. }
    rewrite (proj2 (Z.leb_le _ _)) by lia. reflexivity.
  - intros H50.
    assert (H : (5000 <= hundredths q)%Z).
    { apply hundredths_at_least; [|exact H0]. change (inject_Z 5000) with (5000 # 1)%Q. lra. }
    destruct (100 * 80 <=? hundredths q)%Z; [discriminate|].
    rewrite (proj2 (Z.leb_le (100 * 50) _)) by lia. discriminate.
  - intros Hlow.
    assert (H : (hundredths q < 5000)%Z).
    { apply hundredths_below; [|exact H0]. change (inject_Z 5000) with (5000 # 1)%Q. lra. }
    rewrite (proj2 (Z.leb_gt (100 * 80) _)) by lia.
    rewrite (proj2 (Z.leb_gt (100 * 50) _)) by lia. reflexivity.
Qed.

(** X17, on a load of exactly 80. *)
Lemma rounding_keeps_colour_witness :
  (0 <= 80 # 1)%Q /\ (80 # 1 <= 100 # 1)%Q /\ (80 # 1 <= 80 # 1)%Q
  /\ getUsageColor (parseFloat_toFixed2 (Num (80 # 1))) = "red".
Proof.
  assert (H0 : (0 <= 80 # 1)%Q) by (unfold Qle; simpl; lia).
  assert (H1 : (80 # 1 <= 100 # 1)%Q) by (unfold Qle; simpl; lia).
  assert (H2 : (80 # 1 <= 80 # 1)%Q) by (unfold Qle; simpl; lia).
  split; [exact H0|]. split; [exact H1|]. split; [exact H2|].
  exact (proj1 (rounding_keeps_colour (80 # 1) H0 H1) H2).
Defined.

(** ** From the host to the wire *)

Lemma map_core_message_perCore (cs : list CoreStats) :
  map core_message cs
  = map (fun e => {| address := core_address (fst e); args := [ArgF (snd e)] |})
      (combine (map core cs) (map load cs)).
Proof. induction cs as [|c cs IH]; [reflexivity | cbn; now rewrite IH]. Qed.

(** X18.  What goes on the wire for core [i] is the host's load of its
    [i]-th listed core, rounded: on a snapshot the collector built, the
    per-core messages are, in order, [/cpu/core/0/load], [/cpu/core/1/load]
    and so on, each with the rounded [load] of the host entry at that
    position. *)
Theorem core_messages_follow_host :
  forall host now stats l,
    collectCPUStats host now = Returned stats ->
    si_currentLoad host = Returned l ->
    exists loads,
      Forall2 (fun c x => round2 (si.load c) = Returned x) (si.cpus l) loads
      /\ map core_message (perCore stats)
         = map (fun e => {| address := core_address (fst e); args := [ArgF (snd e)] |})
             (combine (seq 0 (List.length (si.cpus l))) loads).
Proof.
  intros host now stats l H Hl.
  pose proof (collectCPUStats_perCore host now stats H) as Hseq.
  apply collectCPUStats_Returned in H.
  destruct H as (l' & c & Hl' & _ & _ & _ & _ & _ & Hm & _).
  rewrite Hl in Hl'. inversion Hl'; subst l'. clear Hl'.
  pose proof (map_indexed_shape _ _ _ Hm) as [Hlen _].
  apply map_indexed_Returned in Hm. destruct Hm as [_ HF].
  exists (map load (perCore stats)). split.
  - clear Hseq Hlen. induction HF as [|x y xs ys Hxy HF IH]; cbn; constructor.
    + exact (proj1 Hxy).
    + exact IH.
  - rewrite map_core_message_perCore, Hseq, Hlen. reflexivity.
Qed.

(** X18, on the README's 10-core host. *)
Lemma core_messages_follow_host_witness :
  collectCPUStats host_m1 "2025-11-12T01:23:45.789Z" = Returned snapshot_m1
  /\ si_currentLoad host_m1 = Returned (load_with ten_cores)
  /\ exists loads,
       Forall2 (fun c x => round2 (si.load c) = Returned x) ten_cores loads
       /\ map core_message (perCore snapshot_m1)
          = map (fun e => {| address := core_address (fst e); args := [ArgF (snd e)] |})
              (combine (seq 0 (List.length ten_cores)) loads).
Proof.
  assert (H1 : collectCPUStats host_m1 "2025-11-12T01:23:45.789Z" = Returned snapshot_m1)
    by reflexivity.
  assert (H2 : si_currentLoad host_m1 = Returned (load_with ten_cores)) by reflexivity.
  split; [exact H1|]. split; [exact H2|].
  exact (core_messages_follow_host host_m1 "2025-11-12T01:23:45.789Z" snapshot_m1
           (load_with ten_cores) H1 H2).
Defined.

(** X14, on a total of 85. *)
Lemma menu_bar_tint_agrees_witness :
  MenuBar.tint (Some (85 # 1)%Q) = "systemRed" /\ getUsageColor (Num (85 # 1)) = "red".
Proof.
  assert (H : MenuBar.tint (Some (85 # 1)%Q) = "systemRed") by reflexivity.
  split; [exact H|].
  exact (proj1 (proj1 (menu_bar_tint_agrees (85 # 1)%Q)) H).
Defined.
